(** * GPS Fabric connector: a shallow embedding of
      [src/actions/gps/connector/fabric.py] and its verified properties.

    The connector reads three values from the shared dynamic-variable store,
    posts them as a JSON-RPC 2.0 request and classifies the answer into a
    boolean.  The Python methods are embedded as computations in a small
    state-and-exception monad: the state holds the connector instance, the
    log written through [logging] and the list of HTTP calls made through
    [requests.post]; an outcome is either a returned value or a raised
    exception. *)

From Stdlib Require Import String ZArith List Bool Lia.
From Stdlib Require Import SpecFloat.
Import ListNotations.

Local Open Scope string_scope.
Local Open Scope Z_scope.

Set Warnings "-register-all".

(** ** Python values *)

(** The values that flow through the connector: what the store hands out
    and what [response.json()] produces.  A [dict] keeps its keys in
    insertion order, as Python does; the keys that occur here are strings. *)
Inductive pyval : Type :=
| PyNone
| PyBool (b : bool)
| PyInt (z : Z)
| PyFloat (f : spec_float)
| PyStr (s : string)
| PyList (l : list pyval)
| PyDict (kv : list (string * pyval)).

(** [v is None] *)
Definition is_None (v : pyval) : bool :=
  match v with
  | PyNone => true
  | _ => false
  end.

(** Python's truth value of an object, [bool(v)]. *)
Definition truthy (v : pyval) : bool :=
  match v with
  | PyNone => false
  | PyBool b => b
  | PyInt z => negb (z =? 0)
  | PyFloat (S754_zero _) => false
  | PyFloat _ => true
  | PyStr EmptyString => false
  | PyStr _ => true
  | PyList [] => false
  | PyList _ => true
  | PyDict [] => false
  | PyDict _ => true
  end.

(** ** Exceptions *)

(** The exception classes that can occur: those of [requests.exceptions]
    that the [except] clauses name, with the subclasses that decide which
    clause catches, and the built-in ones raised by operations on values of
    the wrong type. *)
Inductive exc_class : Type :=
| RequestException
| Timeout
| ConnectTimeout
| ReadTimeout
| ConnectionError
| JSONDecodeError
| TypeError
| AttributeError
| KeyError.

Definition exc_class_eqb (a b : exc_class) : bool :=
  match a, b with
  | RequestException, RequestException
  | Timeout, Timeout
  | ConnectTimeout, ConnectTimeout
  | ReadTimeout, ReadTimeout
  | ConnectionError, ConnectionError
  | JSONDecodeError, JSONDecodeError
  | TypeError, TypeError
  | AttributeError, AttributeError
  | KeyError, KeyError => true
  | _, _ => false
  end.

(** [issubclass c base]: [ConnectTimeout] derives from both
    [ConnectionError] and [Timeout]; every class of [requests] derives from
    [RequestException]; the built-in classes derive from none of them. *)
Definition issubclass (c base : exc_class) : bool :=
  match base with
  | RequestException =>
      match c with
      | TypeError | AttributeError | KeyError => false
      | _ => true
      end
  | Timeout =>
      match c with
      | Timeout | ConnectTimeout | ReadTimeout => true
      | _ => false
      end
  | ConnectionError =>
      match c with
      | ConnectionError | ConnectTimeout => true
      | _ => false
      end
  | _ => exc_class_eqb c base
  end.

Record exception : Type := { exc_type : exc_class; exc_msg : string }.

Definition isinstance (e : exception) (base : exc_class) : bool :=
  issubclass (exc_type e) base.

Inductive outcome (A : Type) : Type :=
| Return (a : A)
| Raise (e : exception).
Arguments Return {A} a.
Arguments Raise {A} e.

(** ** Operations on values *)

Fixpoint dict_lookup (k : string) (kv : list (string * pyval)) : option pyval :=
  match kv with
  | [] => None
  | (k', v) :: rest => if String.eqb k k' then Some v else dict_lookup k rest
  end.

(** [needle in hay] for two strings: the substring test. *)
Fixpoint str_contains (needle hay : string) : bool :=
  String.prefix needle hay
  || match hay with
     | EmptyString => false
     | String _ hay' => str_contains needle hay'
     end.

(** [k == v] for a string [k]. *)
Definition str_eq_val (k : string) (v : pyval) : bool :=
  match v with
  | PyStr s => String.eqb k s
  | _ => false
  end.

(** [k in v] for a string [k]: key membership in a dict, element membership
    in a list, substring test in a string, [TypeError] on the values that
    are not containers. *)
Definition py_contains (k : string) (v : pyval) : outcome bool :=
  match v with
  | PyDict kv =>
      Return (match dict_lookup k kv with Some _ => true | None => false end)
  | PyList l => Return (existsb (str_eq_val k) l)
  | PyStr s => Return (str_contains k s)
  | _ => Raise {| exc_type := TypeError;
                  exc_msg := "argument is not iterable" |}
  end.

(** [v[k]] for a string [k]: lists and strings take integer indices only,
    the other values are not subscriptable. *)
Definition py_getitem (v : pyval) (k : string) : outcome pyval :=
  match v with
  | PyDict kv =>
      match dict_lookup k kv with
      | Some x => Return x
      | None => Raise {| exc_type := KeyError; exc_msg := k |}
      end
  | PyList _ | PyStr _ =>
      Raise {| exc_type := TypeError;
               exc_msg := "indices must be integers" |}
  | _ => Raise {| exc_type := TypeError;
                  exc_msg := "object is not subscriptable" |}
  end.

(** [v.get(k)]: only a dict has the method; a missing key gives [None]. *)
Definition py_get (v : pyval) (k : string) : outcome pyval :=
  match v with
  | PyDict kv =>
      Return (match dict_lookup k kv with Some x => x | None => PyNone end)
  | _ => Raise {| exc_type := AttributeError;
                  exc_msg := "object has no attribute 'get'" |}
  end.

(** ** Configuration, connector instance and dispatcher input *)

Module GPSFabricConfig.

Record t : Type := mk {
  fabric_endpoint : string;
  request_timeout : Z
}.

(** The constructor of the config class: a field that the configuration
    does not supply takes the [default] of its [Field]. *)
Definition new (fabric_endpoint : option string)
               (request_timeout : option Z) : t :=
  {| fabric_endpoint :=
       match fabric_endpoint with
       | Some url => url
       | None => "http://localhost:8545"
       end;
     request_timeout :=
       match request_timeout with
       | Some seconds => seconds
       | None => 10
       end |}.

End GPSFabricConfig.

(** Modelled from the spec: the action enumeration of
    [actions.gps.interface], which is not among the sources.  The spec
    knows the command "share location" and possibly other kinds, handled
    elsewhere; these are told apart by a number. *)
Inductive GPSAction : Type :=
| SHARE_LOCATION
| OTHER_ACTION (kind : nat).

Definition GPSAction_eqb (a b : GPSAction) : bool :=
  match a, b with
  | SHARE_LOCATION, SHARE_LOCATION => true
  | OTHER_ACTION m, OTHER_ACTION n => Nat.eqb m n
  | _, _ => false
  end.

(** Modelled from the spec: the input class of [actions.gps.interface],
    of which the connector reads the [action] attribute only. *)
Record GPSInput : Type := { action : GPSAction }.

(** The reference that [IOProvider()] returns: the provider is a
    process-wide singleton, its content lives outside the connector. *)
Inductive IOProvider : Type := IOProvider_singleton.

(** The attributes of a [GPSFabricConnector] instance. *)
Record GPSFabricConnector : Type := {
  config : GPSFabricConfig.t;
  io_provider : IOProvider;
  fabric_endpoint : string;
  request_timeout : Z
}.

(** ** The HTTP client and the log *)

Module PostArgs.

(** The arguments of one call of [requests.post]. *)
Record t : Type := mk {
  url : string;
  json : pyval;
  headers : list (string * string);
  timeout : Z
}.

End PostArgs.

Module Response.

(** What the connector reads of a [requests.Response]: the property [ok],
    the status code, the body text and the result of the method [json()],
    which returns the parsed body or raises. *)
Record t : Type := mk {
  ok : bool;
  status_code : Z;
  text : string;
  json : outcome pyval
}.

End Response.

(** The property [ok] as requests computes it from the status code:
    [raise_for_status()] raises for a status from 400 to 599, and [ok] is
    true exactly when it does not raise. *)
Definition ok_of_status (status_code : Z) : bool :=
  negb ((400 <=? status_code) && (status_code <? 600)).

(** A response as requests builds it: its [ok] goes with its status. *)
Definition from_requests (r : Response.t) : Prop :=
  Response.ok r = ok_of_status (Response.status_code r).

(** An f-string, kept as its literal pieces and the values formatted into
    it: rendering a value as text is left to Python. *)
Inductive fragment : Type :=
| Lit (s : string)
| FmtVal (v : pyval)
| FmtInt (z : Z)
| FmtStr (s : string)
| FmtExc (e : exception)
| FmtAction (a : GPSAction).

Inductive level : Type := INFO | ERROR.

Record log_record : Type := { lvl : level; msg : list fragment }.

(** Modelled from the spec: the surroundings of a call, which are not among
    the sources.  The coordinate store is a lookup by string key that
    returns a value or nothing ([None]); the HTTP client, given a request,
    answers with a response or fails with an exception. *)
Record Env : Type := {
  get_dynamic_variable : string -> pyval;
  requests_post : PostArgs.t -> outcome Response.t
}.

(** The state that a call can touch. *)
Record world : Type := {
  w_self : GPSFabricConnector;
  w_log : list log_record;
  w_http : list PostArgs.t
}.

(** ** The monad of Python computations *)

Definition Py (A : Type) : Type := world -> outcome A * world.

Definition ret {A} (a : A) : Py A := fun w => (Return a, w).

Definition raise {A} (e : exception) : Py A := fun w => (Raise e, w).

Definition bind {A B} (m : Py A) (k : A -> Py B) : Py B :=
  fun w =>
    match m w with
    | (Return a, w') => k a w'
    | (Raise e, w') => (Raise e, w')
    end.

Declare Scope py_scope.
Delimit Scope py_scope with py.
Notation "x <- m ;; k" := (bind m (fun x => k))
  (at level 61, m at next level, right associativity) : py_scope.
Notation "m ;; k" := (bind m (fun _ => k))
  (at level 61, right associativity) : py_scope.
Local Open Scope py_scope.

(** An operation on values that may raise, run as a computation. *)
Definition lift {A} (o : outcome A) : Py A := fun w => (o, w).

(** One [except C as e: handler] clause. *)
Definition clause (A : Type) : Type := exc_class * (exception -> Py A).

(** The first clause whose class the exception is an instance of. *)
Fixpoint find_clause {A} (e : exception) (cs : list (clause A))
  : option (exception -> Py A) :=
  match cs with
  | [] => None
  | (c, h) :: rest => if isinstance e c then Some h else find_clause e rest
  end.

(** [try: body  except ...: ...] where the whole rest of the function is
    the body. *)
Definition try_except {A} (body : Py A) (cs : list (clause A)) : Py A :=
  fun w =>
    match body w with
    | (Return a, w') => (Return a, w')
    | (Raise e, w') =>
        match find_clause e cs with
        | Some h => h e w'
        | None => (Raise e, w')
        end
    end.

(** [try: x = body  except ...: return ...] followed by the code [k] that
    uses [x]: the clauses guard [body] only, and each of them leaves the
    function with its value. *)
Definition try_except_then {A B} (body : Py A) (cs : list (clause B))
                           (k : A -> Py B) : Py B :=
  fun w =>
    match body w with
    | (Return a, w') => k a w'
    | (Raise e, w') =>
        match find_clause e cs with
        | Some h => h e w'
        | None => (Raise e, w')
        end
    end.

Definition logging_info (m : list fragment) : Py unit :=
  fun w => (Return tt,
            {| w_self := w_self w;
               w_log := w_log w ++ [{| lvl := INFO; msg := m |}];
               w_http := w_http w |}).

Definition logging_error (m : list fragment) : Py unit :=
  fun w => (Return tt,
            {| w_self := w_self w;
               w_log := w_log w ++ [{| lvl := ERROR; msg := m |}];
               w_http := w_http w |}).

(** [self.attr] *)
Definition self_attr {A} (attr : GPSFabricConnector -> A) : Py A :=
  fun w => (Return (attr (w_self w)), w).

(** [requests.post(url, json=..., headers=..., timeout=...)]: the call is
    recorded, then the client answers or raises. *)
Definition post (env : Env) (args : PostArgs.t) : Py Response.t :=
  fun w => (requests_post env args,
            {| w_self := w_self w;
               w_log := w_log w;
               w_http := w_http w ++ [args] |}).

(** ** The connector *)

(** [GPSFabricConnector.__init__] *)
Definition __init__ (config : GPSFabricConfig.t) : GPSFabricConnector :=
  {| config := config;
     io_provider := IOProvider_singleton;
     fabric_endpoint := GPSFabricConfig.fabric_endpoint config;
     request_timeout := GPSFabricConfig.request_timeout config |}.

(** The [json=] argument of the POST. *)
Definition envelope (latitude longitude yaw : pyval) : pyval :=
  PyDict
    [ ("method", PyStr "omp2p_shareStatus");
      ("params",
        PyList
          [ PyDict [ ("latitude", latitude);
                     ("longitude", longitude);
                     ("yaw", yaw) ] ]);
      ("id", PyInt 1);
      ("jsonrpc", PyStr "2.0") ].

(** The code after [response_data = response.json()]. *)
Definition classify (response_data : pyval) : Py bool :=
  has_error <- lift (py_contains "error" response_data) ;;
  if has_error : bool then
    error <- lift (py_getitem response_data "error") ;;
    code <- lift (py_get error "code") ;;
    message <- lift (py_get error "message") ;;
    logging_error [ Lit "GPSFabricConnector: JSON-RPC error: code=";
                    FmtVal code; Lit ", message="; FmtVal message ] ;;
    ret false
  else
    has_result <- lift (py_contains "result" response_data) ;;
    result_ok <- (if has_result : bool
                  then result <- lift (py_getitem response_data "result") ;;
                       ret (truthy result)
                  else ret false) ;;
    if result_ok : bool then
      logging_info [ Lit "GPSFabricConnector: Coordinates shared successfully." ] ;;
      ret true
    else
      logging_error [ Lit "GPSFabricConnector: Failed to share coordinates." ] ;;
      ret false.

(** The [except] clause of the inner [try], around [response.json()]. *)
Definition on_parse_failure : list (clause bool) :=
  [ (JSONDecodeError,
     fun e =>
       logging_error
         [ Lit "GPSFabricConnector: Failed to parse JSON response: ";
           FmtExc e ] ;;
       ret false) ].

(** The body of the outer [try]. *)
Definition exchange (env : Env) (latitude longitude yaw : pyval) : Py bool :=
  endpoint <- self_attr fabric_endpoint ;;
  seconds <- self_attr request_timeout ;;
  response <- post env {| PostArgs.url := endpoint;
                          PostArgs.json := envelope latitude longitude yaw;
                          PostArgs.headers :=
                            [ ("Content-Type", "application/json") ];
                          PostArgs.timeout := seconds |} ;;
  if negb (Response.ok response) then
    logging_error [ Lit "GPSFabricConnector: HTTP error ";
                    FmtInt (Response.status_code response); Lit ": ";
                    FmtStr (Response.text response) ] ;;
    ret false
  else
    try_except_then (lift (Response.json response)) on_parse_failure classify.

(** The [except] clauses of the outer [try], in the order of the source. *)
Definition on_transport_failure : list (clause bool) :=
  [ (Timeout,
     fun _ =>
       seconds <- self_attr request_timeout ;;
       logging_error [ Lit "GPSFabricConnector: Request timed out after ";
                       FmtInt seconds; Lit " seconds" ] ;;
       ret false);
    (ConnectionError,
     fun e =>
       logging_error [ Lit "GPSFabricConnector: Connection error: ";
                       FmtExc e ] ;;
       ret false);
    (RequestException,
     fun e =>
       logging_error
         [ Lit "GPSFabricConnector: Error sending coordinates: ";
           FmtExc e ] ;;
       ret false) ].

Definition send_coordinates (env : Env) : Py bool :=
  logging_info
    [ Lit "GPSFabricConnector: Sending coordinates to Fabric network." ] ;;
  let latitude := get_dynamic_variable env "latitude" in
  let longitude := get_dynamic_variable env "longitude" in
  let yaw := get_dynamic_variable env "yaw_deg" in
  logging_info [ Lit "GPSFabricConnector: Latitude: "; FmtVal latitude ] ;;
  logging_info [ Lit "GPSFabricConnector: Longitude: "; FmtVal longitude ] ;;
  logging_info [ Lit "GPSFabricConnector: Yaw: "; FmtVal yaw ] ;;
  if is_None latitude || is_None longitude || is_None yaw then
    logging_error
      [ Lit "GPSFabricConnector: Coordinates not available. latitude=";
        FmtVal latitude; Lit ", longitude="; FmtVal longitude;
        Lit ", yaw="; FmtVal yaw ] ;;
    ret false
  else
    try_except (exchange env latitude longitude yaw) on_transport_failure.

(** [connect], as the body of the coroutine runs once it is awaited: the
    value of [send_coordinates] is dropped. *)
Definition connect (env : Env) (output_interface : GPSInput) : Py unit :=
  logging_info [ Lit "GPSFabricConnector: ";
                 FmtAction (action output_interface) ] ;;
  if GPSAction_eqb (action output_interface) SHARE_LOCATION then
    send_coordinates env ;;
    ret tt
  else
    ret tt.

(** * Vocabulary of the statements *)

(** ** States and requests *)

(** [w] with the records [rs] added to its log. *)
Definition add_log (w : world) (rs : list log_record) : world :=
  {| w_self := w_self w; w_log := w_log w ++ rs; w_http := w_http w |}.

(** [w] with the call [args] added to its HTTP calls. *)
Definition add_http (w : world) (args : PostArgs.t) : world :=
  {| w_self := w_self w; w_log := w_log w; w_http := w_http w ++ [args] |}.

(** The request that [send_coordinates] makes in the state [w]. *)
Definition request (env : Env) (w : world) : PostArgs.t :=
  {| PostArgs.url := fabric_endpoint (w_self w);
     PostArgs.json :=
       envelope (get_dynamic_variable env "latitude")
                (get_dynamic_variable env "longitude")
                (get_dynamic_variable env "yaw_deg");
     PostArgs.headers := [ ("Content-Type", "application/json") ];
     PostArgs.timeout := request_timeout (w_self w) |}.

(** The four records that every call of [send_coordinates] logs first. *)
Definition preamble (env : Env) : list log_record :=
  [ {| lvl := INFO;
       msg := [ Lit "GPSFabricConnector: Sending coordinates to Fabric network." ] |};
    {| lvl := INFO;
       msg := [ Lit "GPSFabricConnector: Latitude: ";
                FmtVal (get_dynamic_variable env "latitude") ] |};
    {| lvl := INFO;
       msg := [ Lit "GPSFabricConnector: Longitude: ";
                FmtVal (get_dynamic_variable env "longitude") ] |};
    {| lvl := INFO;
       msg := [ Lit "GPSFabricConnector: Yaw: ";
                FmtVal (get_dynamic_variable env "yaw_deg") ] |} ].

(** All three coordinates are there. *)
Definition coordinates_present (env : Env) : Prop :=
  get_dynamic_variable env "latitude" <> PyNone
  /\ get_dynamic_variable env "longitude" <> PyNone
  /\ get_dynamic_variable env "yaw_deg" <> PyNone.

(** A computation that leaves the instance alone. *)
Definition keeps_self {A} (m : Py A) : Prop :=
  forall w, w_self (snd (m w)) = w_self w.

(** The state once the preamble is logged and the request is out. *)
Definition sent (env : Env) (w : world) : world :=
  add_http (add_log w (preamble env)) (request env w).

(** ** Log records *)

(** The record that [connect] logs for the command it receives. *)
Definition received (output_interface : GPSInput) : log_record :=
  {| lvl := INFO;
     msg := [ Lit "GPSFabricConnector: ";
              FmtAction (action output_interface) ] |}.

(** The first record of every call of [send_coordinates]. *)
Definition sending_record : log_record :=
  {| lvl := INFO;
     msg := [ Lit "GPSFabricConnector: Sending coordinates to Fabric network." ] |}.

(** The record logged when a coordinate is missing. *)
Definition unavailable (env : Env) : log_record :=
  {| lvl := ERROR;
     msg := [ Lit "GPSFabricConnector: Coordinates not available. latitude=";
              FmtVal (get_dynamic_variable env "latitude");
              Lit ", longitude=";
              FmtVal (get_dynamic_variable env "longitude");
              Lit ", yaw=";
              FmtVal (get_dynamic_variable env "yaw_deg") ] |}.

(** The records of the failing status and of the body that does not parse. *)
Definition http_error_record (r : Response.t) : log_record :=
  {| lvl := ERROR;
     msg := [ Lit "GPSFabricConnector: HTTP error ";
              FmtInt (Response.status_code r); Lit ": ";
              FmtStr (Response.text r) ] |}.

Definition parse_error_record (e : exception) : log_record :=
  {| lvl := ERROR;
     msg := [ Lit "GPSFabricConnector: Failed to parse JSON response: ";
              FmtExc e ] |}.

(** The record that the matching [except] clause of the outer [try] logs. *)
Definition transport_record (self : GPSFabricConnector) (e : exception)
  : log_record :=
  if isinstance e Timeout then
    {| lvl := ERROR;
       msg := [ Lit "GPSFabricConnector: Request timed out after ";
                FmtInt (request_timeout self); Lit " seconds" ] |}
  else if isinstance e ConnectionError then
    {| lvl := ERROR;
       msg := [ Lit "GPSFabricConnector: Connection error: "; FmtExc e ] |}
  else
    {| lvl := ERROR;
       msg := [ Lit "GPSFabricConnector: Error sending coordinates: ";
                FmtExc e ] |}.

(** The record of a JSON-RPC error whose members are [fields]. *)
Definition rpc_error_record (fields : list (string * pyval)) : log_record :=
  {| lvl := ERROR;
     msg := [ Lit "GPSFabricConnector: JSON-RPC error: code=";
              FmtVal (match dict_lookup "code" fields with
                      | Some x => x
                      | None => PyNone
                      end);
              Lit ", message=";
              FmtVal (match dict_lookup "message" fields with
                      | Some x => x
                      | None => PyNone
                      end) ] |}.

(** The records of the last step. *)
Definition shared_record : log_record :=
  {| lvl := INFO;
     msg := [ Lit "GPSFabricConnector: Coordinates shared successfully." ] |}.

Definition not_shared_record : log_record :=
  {| lvl := ERROR;
     msg := [ Lit "GPSFabricConnector: Failed to share coordinates." ] |}.

(** ** Shapes of a parsed body *)

(** A JSON value that supports the [in] operator. *)
Definition is_container (v : pyval) : bool :=
  match v with
  | PyDict _ | PyList _ | PyStr _ => true
  | _ => false
  end.

(** A JSON object. *)
Definition is_object (v : pyval) : bool :=
  match v with
  | PyDict _ => true
  | _ => false
  end.

(** The exceptions of [error.get] and of ["error" in response_data]. *)
Definition no_get : exception :=
  {| exc_type := AttributeError; exc_msg := "object has no attribute 'get'" |}.

Definition not_iterable : exception :=
  {| exc_type := TypeError; exc_msg := "argument is not iterable" |}.

(** ** Sample surroundings *)

(** A store that holds the three coordinates and nothing else. *)
Definition store (latitude longitude yaw : pyval) : string -> pyval :=
  fun key =>
    if String.eqb key "latitude" then latitude
    else if String.eqb key "longitude" then longitude
    else if String.eqb key "yaw_deg" then yaw
    else PyNone.

(** 37.5, -122.25 and 90.0 as floats. *)
Definition sample_latitude : pyval := PyFloat (S754_finite false 75 (-1)).
Definition sample_longitude : pyval := PyFloat (S754_finite true 489 (-2)).
Definition sample_yaw : pyval := PyFloat (S754_finite false 90 0).

(** The three coordinates are set and the HTTP client gives the same
    answer to every request. *)
Definition sample_env (answer : outcome Response.t) : Env :=
  {| get_dynamic_variable := store sample_latitude sample_longitude sample_yaw;
     requests_post := fun _ => answer |}.

(** A response with status 200 and the parsed body [body]. *)
Definition response_200 (body : pyval) : Response.t :=
  {| Response.ok := true;
     Response.status_code := 200;
     Response.text := "";
     Response.json := Return body |}.

(** A connector just built from the default configuration. *)
Definition fresh_world : world :=
  {| w_self := __init__ (GPSFabricConfig.new None None);
     w_log := [];
     w_http := [] |}.

(** The longitude is not set; the HTTP client would report success. *)
Definition env_without_longitude : Env :=
  {| get_dynamic_variable := store sample_latitude PyNone sample_yaw;
     requests_post :=
       fun _ => Return (response_200 (PyDict [ ("result", PyBool true) ])) |}.

(** The exception of a server that does not answer in time. *)
Definition read_timeout : exception :=
  {| exc_type := ReadTimeout; exc_msg := "read timed out" |}.

(** ** Success *)

(** A client that answers with responses of requests only. *)
Definition client_of_requests (env : Env) : Prop :=
  forall args r, requests_post env args = Return r -> from_requests r.

(** A response that counts as success: the status is none from 400 to 599
    (which is what [response.ok] tests), the body is a JSON object without
    an "error" member and with a "result" member that is true in Python's
    sense. *)
Definition accepted (r : Response.t) : Prop :=
  ok_of_status (Response.status_code r) = true
  /\ exists kv result,
       Response.json r = Return (PyDict kv)
       /\ dict_lookup "error" kv = None
       /\ dict_lookup "result" kv = Some result
       /\ truthy result = true.

(** The success range of status codes in the words of the specification:
    the codes 2xx. *)
Definition in_success_range (status_code : Z) : bool :=
  (200 <=? status_code) && (status_code <? 300).

(** Success in the words of the specification: the POST comes back with a
    response, its status code is in the success range, the body parses and
    has no "error" and a true "result". *)
Definition success_as_specified (env : Env) (w : world) : Prop :=
  exists r,
    requests_post env (request env w) = Return r
    /\ in_success_range (Response.status_code r) = true
    /\ exists kv result,
         Response.json r = Return (PyDict kv)
         /\ dict_lookup "error" kv = None
         /\ dict_lookup "result" kv = Some result
         /\ truthy result = true.

(** ** Further sample answers *)

(** A server error whose body, were it read, would look like a success. *)
Definition response_500 : Response.t :=
  {| Response.ok := false;
     Response.status_code := 500;
     Response.text := "Internal Server Error";
     Response.json := Return (PyDict [ ("result", PyBool true) ]) |}.

(** A response with status 300 (several representations, none chosen by
    the server) whose body reports a result; requests hands it out as it
    is, with the [ok] of its status. *)
Definition response_300 : Response.t :=
  {| Response.ok := ok_of_status 300;
     Response.status_code := 300;
     Response.text := "";
     Response.json := Return (PyDict [ ("result", PyBool true) ]) |}.

(** A body without "result" whose "error" member is null. *)
Definition body_error_null : pyval := PyDict [ ("error", PyNone) ].

(** The exception of [response.json()] on a body that is no JSON. *)
Definition json_decode_error : exception :=
  {| exc_type := JSONDecodeError; exc_msg := "Expecting value" |}.

(** A 200 response whose body is a page of HTML. *)
Definition response_html : Response.t :=
  {| Response.ok := true;
     Response.status_code := 200;
     Response.text := "<html></html>";
     Response.json := Raise json_decode_error |}.

(** The exception of a connection attempt that takes too long: an instance
    of [Timeout] and of [ConnectionError]. *)
Definition connect_timeout : exception :=
  {| exc_type := ConnectTimeout; exc_msg := "connect timed out" |}.

(** The exception of a connection that breaks while the body is read. *)
Definition connection_broken : exception :=
  {| exc_type := ConnectionError; exc_msg := "connection broken" |}.

(** A 200 response whose body cannot be read to its end. *)
Definition response_broken : Response.t :=
  {| Response.ok := true;
     Response.status_code := 200;
     Response.text := "";
     Response.json := Raise connection_broken |}.

(** A JSON-RPC error that has a code and no message, beside a result. *)
Definition body_error_and_result : pyval :=
  PyDict [ ("error", PyDict [ ("code", PyInt (-32000)) ]);
           ("result", PyBool true) ].

(** The values that Python takes for false. *)
Definition falsy (v : pyval) : Prop :=
  v = PyNone \/ v = PyBool false \/ v = PyInt 0
  \/ (exists sign, v = PyFloat (S754_zero sign))
  \/ v = PyStr "" \/ v = PyList [] \/ v = PyDict [].

(** The exception of [response_data["error"]] on an array or a string. *)
Definition bad_index : exception :=
  {| exc_type := TypeError; exc_msg := "indices must be integers" |}.

(** * Properties *)

(** ** The state as a call leaves it *)

Lemma is_None_false (v : pyval) : v <> PyNone -> is_None v = false.
Proof. destruct v; simpl; congruence. Qed.

Lemma find_clause_In {A} (e : exception) (cs : list (clause A)) h :
  find_clause e cs = Some h -> exists c, In (c, h) cs.
Proof.
  induction cs as [| [c h'] cs IH]; simpl; [discriminate |].
  destruct (isinstance e c).
  - intros [= <-]. exists c. now left.
  - intros H. destruct (IH H) as [c' Hc']. exists c'. now right.
Qed.

Section Frames.

Context {A B : Type}.

Lemma keeps_self_ret (a : A) : keeps_self (ret a).
Proof. intro w; reflexivity. Qed.

Lemma keeps_self_lift (o : outcome A) : keeps_self (lift o).
Proof. intro w; reflexivity. Qed.

Lemma keeps_self_attr (attr : GPSFabricConnector -> A) :
  keeps_self (self_attr attr).
Proof. intro w; reflexivity. Qed.

Lemma keeps_self_bind (m : Py A) (k : A -> Py B) :
  keeps_self m -> (forall a, keeps_self (k a)) -> keeps_self (bind m k).
Proof.
  intros Hm Hk w. unfold bind.
  specialize (Hm w). destruct (m w) as [[a | e] w']; simpl in *.
  - rewrite Hk. exact Hm.
  - exact Hm.
Qed.

Lemma keeps_self_try_except (body : Py A) (cs : list (clause A)) :
  keeps_self body ->
  (forall c h, In (c, h) cs -> forall e, keeps_self (h e)) ->
  keeps_self (try_except body cs).
Proof.
  intros Hb Hcs w. unfold try_except.
  specialize (Hb w). destruct (body w) as [[a | e] w']; simpl in *.
  - exact Hb.
  - destruct (find_clause e cs) as [h |] eqn:Hf; simpl.
    + destruct (find_clause_In _ _ _ Hf) as [c Hc].
      rewrite (Hcs c h Hc e w'). exact Hb.
    + exact Hb.
Qed.

Lemma keeps_self_try_except_then (body : Py A) (cs : list (clause B))
      (k : A -> Py B) :
  keeps_self body ->
  (forall c h, In (c, h) cs -> forall e, keeps_self (h e)) ->
  (forall a, keeps_self (k a)) ->
  keeps_self (try_except_then body cs k).
Proof.
  intros Hb Hcs Hk w. unfold try_except_then.
  specialize (Hb w). destruct (body w) as [[a | e] w']; simpl in *.
  - rewrite Hk. exact Hb.
  - destruct (find_clause e cs) as [h |] eqn:Hf; simpl.
    + destruct (find_clause_In _ _ _ Hf) as [c Hc].
      rewrite (Hcs c h Hc e w'). exact Hb.
    + exact Hb.
Qed.

End Frames.

Lemma keeps_self_info (m : list fragment) : keeps_self (logging_info m).
Proof. intro w; reflexivity. Qed.

Lemma keeps_self_error (m : list fragment) : keeps_self (logging_error m).
Proof. intro w; reflexivity. Qed.

Lemma keeps_self_post (env : Env) (args : PostArgs.t) :
  keeps_self (post env args).
Proof. intro w; reflexivity. Qed.

Create HintDb frame discriminated.
#[local] Hint Resolve
  keeps_self_ret keeps_self_lift keeps_self_attr keeps_self_info
  keeps_self_error keeps_self_post : frame.

(** Splits a computation along its binds and branches. *)
Ltac frame_step :=
  match goal with
  | |- keeps_self (bind _ _) => apply keeps_self_bind; [| intro]
  | |- keeps_self (if ?b then _ else _) => destruct b
  | |- keeps_self (try_except _ _) => apply keeps_self_try_except
  | |- keeps_self (try_except_then _ _ _) =>
      apply keeps_self_try_except_then
  | |- forall c h, In (c, h) _ -> _ =>
      let c := fresh "c" in
      let h := fresh "h" in
      let H := fresh "H" in
      intros c h H; simpl in H;
      repeat (destruct H as [H | H]; [inversion H; subst; clear H; intro |]);
      [.. | contradiction]
  | |- forall _, keeps_self _ => intro
  | |- keeps_self _ => solve [auto with frame]
  end.

Lemma keeps_self_classify (response_data : pyval) :
  keeps_self (classify response_data).
Proof. unfold classify. repeat frame_step. Qed.

Lemma keeps_self_exchange (env : Env) (latitude longitude yaw : pyval) :
  keeps_self (exchange env latitude longitude yaw).
Proof.
  unfold exchange, on_parse_failure. repeat frame_step.
  apply keeps_self_classify.
Qed.

Lemma keeps_self_send_coordinates (env : Env) :
  keeps_self (send_coordinates env).
Proof.
  unfold send_coordinates, on_transport_failure. repeat frame_step.
  apply keeps_self_exchange.
Qed.

Lemma keeps_self_connect (env : Env) (output_interface : GPSInput) :
  keeps_self (connect env output_interface).
Proof.
  unfold connect. repeat frame_step. apply keeps_self_send_coordinates.
Qed.

(** ** The two ways out of the validation *)

Lemma send_coordinates_absent (env : Env) (w : world) :
  is_None (get_dynamic_variable env "latitude")
  || is_None (get_dynamic_variable env "longitude")
  || is_None (get_dynamic_variable env "yaw_deg") = true ->
  send_coordinates env w
  = (Return false, add_log w (preamble env ++ [unavailable env])).
Proof.
  intro H. unfold send_coordinates, bind, logging_info, logging_error, ret.
  simpl. rewrite H. unfold add_log, preamble, unavailable. simpl.
  rewrite <- !app_assoc. reflexivity.
Qed.

Lemma send_coordinates_present (env : Env) (w : world) :
  coordinates_present env ->
  send_coordinates env w
  = try_except
      (exchange env (get_dynamic_variable env "latitude")
                    (get_dynamic_variable env "longitude")
                    (get_dynamic_variable env "yaw_deg"))
      on_transport_failure
      (add_log w (preamble env)).
Proof.
  intros (Hlat & Hlon & Hyaw).
  unfold send_coordinates, bind, logging_info. simpl.
  rewrite !is_None_false by assumption. simpl.
  unfold add_log, preamble. rewrite <- !app_assoc. reflexivity.
Qed.

(** ** The exchange, step by step *)

Lemma exchange_run (env : Env) (w : world) :
  exchange env (get_dynamic_variable env "latitude")
               (get_dynamic_variable env "longitude")
               (get_dynamic_variable env "yaw_deg")
           (add_log w (preamble env))
  = match requests_post env (request env w) with
    | Raise e => (Raise e, sent env w)
    | Return r =>
        if negb (Response.ok r) then
          (Return false, add_log (sent env w) [http_error_record r])
        else
          match Response.json r with
          | Return response_data => classify response_data (sent env w)
          | Raise e =>
              if isinstance e JSONDecodeError then
                (Return false, add_log (sent env w) [parse_error_record e])
              else (Raise e, sent env w)
          end
    end.
Proof.
  unfold exchange, bind, self_attr, post. simpl.
  fold (request env w).
  change {| w_self := w_self w;
            w_log := w_log w ++ preamble env;
            w_http := w_http w ++ [request env w] |} with (sent env w).
  destruct (requests_post env (request env w)) as [r | e]; [| reflexivity].
  destruct (Response.ok r); simpl; [| reflexivity].
  unfold try_except_then, lift.
  destruct (Response.json r) as [v | e]; [reflexivity |].
  destruct e as [c m]. destruct c; reflexivity.
Qed.

(** What the outer [try] makes of an exception raised in state [w]. *)
Lemma transport_failure_run (e : exception) (w : world) :
  match find_clause e on_transport_failure with
  | Some h =>
      isinstance e RequestException = true
      /\ h e w = (Return false, add_log w [transport_record (w_self w) e])
  | None => isinstance e RequestException = false
  end.
Proof.
  destruct e as [c m]. unfold transport_record.
  destruct c; simpl; try split; reflexivity.
Qed.

(** ** The classification of a parsed body *)

Lemma classify_dict (kv : list (string * pyval)) (w : world) :
  classify (PyDict kv) w
  = match dict_lookup "error" kv with
    | Some (PyDict fields) =>
        (Return false, add_log w [rpc_error_record fields])
    | Some _ => (Raise no_get, w)
    | None =>
        match dict_lookup "result" kv with
        | Some result =>
            if truthy result
            then (Return true, add_log w [shared_record])
            else (Return false, add_log w [not_shared_record])
        | None => (Return false, add_log w [not_shared_record])
        end
    end.
Proof.
  unfold classify, bind, lift. simpl.
  destruct (dict_lookup "error" kv) as [e |]; simpl.
  - destruct e; reflexivity.
  - destruct (dict_lookup "result" kv) as [r |]; simpl;
      [destruct (truthy r) |]; reflexivity.
Qed.

Lemma classify_not_container (v : pyval) (w : world) :
  is_container v = false -> classify v w = (Raise not_iterable, w).
Proof. destruct v; simpl; intro H; try discriminate H; reflexivity. Qed.

(** An exception that comes out of the classification is none of the
    HTTP client's. *)
Lemma classify_raises (v : pyval) (w : world) (e : exception) :
  fst (classify v w) = Raise e -> isinstance e RequestException = false.
Proof.
  destruct v as [| b | z | f | s | l | kv];
    try (rewrite classify_not_container by reflexivity;
         simpl; intros [= <-]; reflexivity).
  - unfold classify, bind, lift. simpl.
    destruct (str_contains "error" s); simpl;
      [intros [= <-]; reflexivity |].
    destruct (str_contains "result" s); simpl;
      [intros [= <-]; reflexivity | discriminate].
  - unfold classify, bind, lift. simpl.
    destruct (existsb (str_eq_val "error") l); simpl;
      [intros [= <-]; reflexivity |].
    destruct (existsb (str_eq_val "result") l); simpl;
      [intros [= <-]; reflexivity | discriminate].
  - rewrite classify_dict.
    destruct (dict_lookup "error" kv) as [[| | | | | |] |]; simpl;
      try (intros [= <-]; reflexivity); try discriminate.
    destruct (dict_lookup "result" kv) as [r |]; simpl;
      [destruct (truthy r) |]; discriminate.
Qed.

Lemma try_classify (v : pyval) (w : world) :
  try_except (classify v) on_transport_failure w = classify v w.
Proof.
  unfold try_except.
  destruct (classify v w) as [[b | e] w'] eqn:Hc; [reflexivity |].
  assert (He : isinstance e RequestException = false).
  { apply (classify_raises v w). rewrite Hc. reflexivity. }
  pose proof (transport_failure_run e w') as Ht.
  destruct (find_clause e on_transport_failure); [| reflexivity].
  destruct Ht as [Ht _]. congruence.
Qed.

(** ** The whole call, once the coordinates are there *)

Lemma send_coordinates_run (env : Env) (w : world) :
  coordinates_present env ->
  send_coordinates env w
  = match requests_post env (request env w) with
    | Raise e =>
        if isinstance e RequestException then
          (Return false,
           add_log (sent env w) [transport_record (w_self w) e])
        else (Raise e, sent env w)
    | Return r =>
        if negb (Response.ok r) then
          (Return false, add_log (sent env w) [http_error_record r])
        else
          match Response.json r with
          | Return response_data => classify response_data (sent env w)
          | Raise e =>
              if isinstance e JSONDecodeError then
                (Return false, add_log (sent env w) [parse_error_record e])
              else if isinstance e RequestException then
                (Return false,
                 add_log (sent env w) [transport_record (w_self w) e])
              else (Raise e, sent env w)
          end
    end.
Proof.
  intro Hp. rewrite (send_coordinates_present env w Hp).
  pose proof (exchange_run env w) as Hx.
  destruct (requests_post env (request env w)) as [r | e].
  - destruct (Response.ok r); cbn [negb] in *.
    + destruct (Response.json r) as [v | e].
      * unfold try_except. rewrite Hx.
        exact (try_classify v (sent env w)).
      * unfold try_except. rewrite Hx.
        destruct (isinstance e JSONDecodeError); [reflexivity |].
        pose proof (transport_failure_run e (sent env w)) as Ht.
        destruct (find_clause e on_transport_failure).
        -- destruct Ht as [-> ->]. reflexivity.
        -- rewrite Ht. reflexivity.
    + unfold try_except. rewrite Hx. reflexivity.
  - unfold try_except. rewrite Hx.
    pose proof (transport_failure_run e (sent env w)) as Ht.
    destruct (find_clause e on_transport_failure).
    + destruct Ht as [-> ->]. reflexivity.
    + rewrite Ht. reflexivity.
Qed.

(** ** Where a call leaves the log and the HTTP calls *)

Lemma add_log_nil (w : world) : add_log w [] = w.
Proof. destruct w. unfold add_log. simpl. now rewrite app_nil_r. Qed.

(** The classification only logs. *)
Lemma classify_state (v : pyval) (w : world) :
  exists rs, snd (classify v w) = add_log w rs.
Proof.
  destruct v as [| b | z | f | s | l | kv];
    try (rewrite classify_not_container by reflexivity;
         exists []; symmetry; apply add_log_nil).
  - unfold classify, bind, lift. simpl.
    destruct (str_contains "error" s); simpl;
      [exists []; symmetry; apply add_log_nil |].
    destruct (str_contains "result" s); simpl;
      [exists []; symmetry; apply add_log_nil | eexists; reflexivity].
  - unfold classify, bind, lift. simpl.
    destruct (existsb (str_eq_val "error") l); simpl;
      [exists []; symmetry; apply add_log_nil |].
    destruct (existsb (str_eq_val "result") l); simpl;
      [exists []; symmetry; apply add_log_nil | eexists; reflexivity].
  - rewrite classify_dict.
    destruct (dict_lookup "error" kv) as [[| | | | | |] |]; simpl;
      try (exists []; symmetry; apply add_log_nil);
      try (eexists; reflexivity).
    destruct (dict_lookup "result" kv) as [r |]; simpl;
      [destruct (truthy r) |]; eexists; reflexivity.
Qed.

(** With the coordinates there, a call ends in the state [sent], up to
    further log records. *)
Lemma send_coordinates_state (env : Env) (w : world) :
  coordinates_present env ->
  exists rs, snd (send_coordinates env w) = add_log (sent env w) rs.
Proof.
  intro Hp. rewrite (send_coordinates_run env w Hp).
  destruct (requests_post env (request env w)) as [r | e].
  - destruct (negb (Response.ok r)); [eexists; reflexivity |].
    destruct (Response.json r) as [v | e].
    + apply classify_state.
    + destruct (isinstance e JSONDecodeError); [eexists; reflexivity |].
      destruct (isinstance e RequestException);
        [eexists; reflexivity | exists []; symmetry; apply add_log_nil].
  - destruct (isinstance e RequestException);
      [eexists; reflexivity | exists []; symmetry; apply add_log_nil].
Qed.

Lemma send_coordinates_http (env : Env) (w : world) :
  coordinates_present env ->
  w_http (snd (send_coordinates env w)) = (w_http w ++ [request env w])%list.
Proof.
  intro Hp. destruct (send_coordinates_state env w Hp) as [rs ->].
  reflexivity.
Qed.

(** Every call starts its log with the preamble. *)
Lemma send_coordinates_log (env : Env) (w : world) :
  exists rs, w_log (snd (send_coordinates env w))
             = (w_log w ++ preamble env ++ rs)%list.
Proof.
  destruct (is_None (get_dynamic_variable env "latitude")
            || is_None (get_dynamic_variable env "longitude")
            || is_None (get_dynamic_variable env "yaw_deg")) eqn:Hm.
  - rewrite (send_coordinates_absent env w Hm). eexists. reflexivity.
  - apply orb_false_elim in Hm. destruct Hm as [Hm Hyaw].
    apply orb_false_elim in Hm. destruct Hm as [Hlat Hlon].
    assert (Hp : coordinates_present env).
    { repeat split; intro H; rewrite H in *; discriminate. }
    destruct (send_coordinates_state env w Hp) as [rs ->].
    exists rs. unfold sent, add_http, add_log. cbn [w_log].
    now rewrite <- app_assoc.
Qed.

(** Either a coordinate is missing or all three are there. *)
Lemma missing_or_present (env : Env) :
  { is_None (get_dynamic_variable env "latitude")
    || is_None (get_dynamic_variable env "longitude")
    || is_None (get_dynamic_variable env "yaw_deg") = true }
  + { coordinates_present env }.
Proof.
  destruct (get_dynamic_variable env "latitude") eqn:Hlat;
    try (left; reflexivity);
    (destruct (get_dynamic_variable env "longitude") eqn:Hlon;
     try (left; reflexivity);
     (destruct (get_dynamic_variable env "yaw_deg") eqn:Hyaw;
      try (left; reflexivity)));
    right; unfold coordinates_present; rewrite Hlat, Hlon, Hyaw;
    repeat split; discriminate.
Qed.

(** ** Validation of the coordinates *)

(** C1. Whenever at least one of the three store lookups ("latitude",
    "longitude", "yaw_deg") gives [None], [send_coordinates] returns
    [False], makes no HTTP call and logs, after its four informational
    records, one record of level ERROR; one missing value is enough. *)
Theorem send_coordinates_aborts_when_a_value_is_missing
        (env : Env) (w : world) :
  get_dynamic_variable env "latitude" = PyNone
  \/ get_dynamic_variable env "longitude" = PyNone
  \/ get_dynamic_variable env "yaw_deg" = PyNone ->
  fst (send_coordinates env w) = Return false
  /\ w_http (snd (send_coordinates env w)) = w_http w
  /\ exists m,
       w_log (snd (send_coordinates env w))
       = (w_log w ++ preamble env ++ [ {| lvl := ERROR; msg := m |} ])%list.
Proof.
  intro Hmiss.
  assert (Hb : is_None (get_dynamic_variable env "latitude")
               || is_None (get_dynamic_variable env "longitude")
               || is_None (get_dynamic_variable env "yaw_deg") = true).
  { destruct Hmiss as [H | [H | H]]; rewrite H; simpl;
      rewrite ?orb_true_r; reflexivity. }
  rewrite (send_coordinates_absent env w Hb). simpl.
  repeat split. eexists. reflexivity.
Qed.

Lemma send_coordinates_aborts_when_a_value_is_missing_witness :
  get_dynamic_variable env_without_longitude "longitude" = PyNone
  /\ fst (send_coordinates env_without_longitude fresh_world) = Return false
  /\ w_http (snd (send_coordinates env_without_longitude fresh_world)) = [].
Proof.
  split; [reflexivity |].
  destruct (send_coordinates_aborts_when_a_value_is_missing
              env_without_longitude fresh_world) as (Hret & Hhttp & _).
  - right; left; reflexivity.
  - split; [exact Hret | exact Hhttp].
Defined.

(** ** The request *)

(** C3. With all three coordinates there, [send_coordinates] makes exactly
    one HTTP call: a POST to the configured endpoint, with the header
    Content-Type: application/json, the configured timeout and the JSON-RPC
    envelope around the three values as they were fetched. *)
Theorem send_coordinates_posts_one_request
        (cfg : GPSFabricConfig.t) (env : Env) (w : world) :
  w_self w = __init__ cfg ->
  get_dynamic_variable env "latitude" <> PyNone ->
  get_dynamic_variable env "longitude" <> PyNone ->
  get_dynamic_variable env "yaw_deg" <> PyNone ->
  w_http (snd (send_coordinates env w))
  = (w_http w
     ++ [ {| PostArgs.url := GPSFabricConfig.fabric_endpoint cfg;
             PostArgs.json :=
               PyDict
                 [ ("method", PyStr "omp2p_shareStatus");
                   ("params",
                     PyList
                       [ PyDict
                           [ ("latitude", get_dynamic_variable env "latitude");
                             ("longitude", get_dynamic_variable env "longitude");
                             ("yaw", get_dynamic_variable env "yaw_deg") ] ]);
                   ("id", PyInt 1);
                   ("jsonrpc", PyStr "2.0") ];
             PostArgs.headers := [ ("Content-Type", "application/json") ];
             PostArgs.timeout := GPSFabricConfig.request_timeout cfg |} ])%list.
Proof.
  intros Hself Hlat Hlon Hyaw.
  rewrite send_coordinates_http by (repeat split; assumption).
  unfold request. rewrite Hself. reflexivity.
Qed.

Lemma send_coordinates_posts_one_request_witness :
  w_http (snd (send_coordinates (sample_env (Raise read_timeout)) fresh_world))
  = [ {| PostArgs.url := "http://localhost:8545";
         PostArgs.json := envelope sample_latitude sample_longitude sample_yaw;
         PostArgs.headers := [ ("Content-Type", "application/json") ];
         PostArgs.timeout := 10 |} ].
Proof.
  apply (send_coordinates_posts_one_request
           (GPSFabricConfig.new None None)
           (sample_env (Raise read_timeout)) fresh_world);
    [reflexivity | discriminate | discriminate | discriminate].
Defined.

(** ** The outcome *)

(** A body that is no JSON object is never a success. *)
Lemma classify_true_object (v : pyval) (w : world) :
  fst (classify v w) = Return true ->
  exists kv result,
    v = PyDict kv
    /\ dict_lookup "error" kv = None
    /\ dict_lookup "result" kv = Some result
    /\ truthy result = true.
Proof.
  destruct v as [| b | z | f | s | l | kv];
    try (rewrite classify_not_container by reflexivity; discriminate).
  - unfold classify, bind, lift. simpl.
    destruct (str_contains "error" s); simpl; [discriminate |].
    destruct (str_contains "result" s); simpl; discriminate.
  - unfold classify, bind, lift. simpl.
    destruct (existsb (str_eq_val "error") l); simpl; [discriminate |].
    destruct (existsb (str_eq_val "result") l); simpl; discriminate.
  - rewrite classify_dict.
    destruct (dict_lookup "error" kv) as [[| | | | | |] |] eqn:He; simpl;
      try discriminate.
    destruct (dict_lookup "result" kv) as [r |] eqn:Hr; simpl;
      [| discriminate].
    destruct (truthy r) eqn:Ht; simpl; [| discriminate].
    intros _. exists kv, r. repeat split; assumption.
Qed.

Lemma send_coordinates_true_iff (env : Env) (w : world) :
  fst (send_coordinates env w) = Return true
  <-> coordinates_present env
      /\ exists r,
           requests_post env (request env w) = Return r
           /\ Response.ok r = true
           /\ exists kv result,
                Response.json r = Return (PyDict kv)
                /\ dict_lookup "error" kv = None
                /\ dict_lookup "result" kv = Some result
                /\ truthy result = true.
Proof.
  split.
  - intro H. destruct (missing_or_present env) as [Hm | Hp].
    + rewrite (send_coordinates_absent env w Hm) in H. discriminate H.
    + split; [exact Hp |].
      rewrite (send_coordinates_run env w Hp) in H.
      destruct (requests_post env (request env w)) as [r | e].
      * exists r. split; [reflexivity |].
        destruct (Response.ok r) eqn:Hok; cbn [negb] in H;
          [| discriminate H].
        split; [reflexivity |].
        destruct (Response.json r) as [v | e].
        -- destruct (classify_true_object v _ H) as (kv & res & -> & Hrest).
           exists kv, res. split; [reflexivity | exact Hrest].
        -- destruct (isinstance e JSONDecodeError); [discriminate H |].
           destruct (isinstance e RequestException); discriminate H.
      * destruct (isinstance e RequestException); discriminate H.
  - intros (Hp & r & Hpost & Hok & kv & res & Hjson & Herr & Hres & Ht).
    rewrite (send_coordinates_run env w Hp), Hpost, Hok, Hjson.
    cbn [negb]. rewrite classify_dict, Herr, Hres, Ht. reflexivity.
Qed.

(** A 200 response whose body is a JSON object without a true "result":
    the call returns [False], provided an "error" member, if there is one,
    is itself an object. *)
Lemma send_coordinates_no_result (env : Env) (w : world) (r : Response.t)
      (kv : list (string * pyval)) :
  coordinates_present env ->
  requests_post env (request env w) = Return r ->
  Response.ok r = true ->
  Response.json r = Return (PyDict kv) ->
  (forall e, dict_lookup "error" kv = Some e -> is_object e = true) ->
  (forall result, dict_lookup "result" kv = Some result ->
                  truthy result = false) ->
  fst (send_coordinates env w) = Return false.
Proof.
  intros Hp Hpost Hok Hjson Herr Hres.
  rewrite (send_coordinates_run env w Hp), Hpost, Hok, Hjson.
  cbn [negb]. rewrite classify_dict.
  destruct (dict_lookup "error" kv) as [e |].
  - specialize (Herr e eq_refl). destruct e; try discriminate Herr.
    reflexivity.
  - destruct (dict_lookup "result" kv) as [res |]; [| reflexivity].
    rewrite (Hres res eq_refl). reflexivity.
Qed.

(** Against C2 as the specification words it.  A response with status 300
    and body {"result": true} makes the call return [True], though 300 is
    outside the success range 2xx: the source tests [response.ok], which
    holds for every status outside 400 to 599.  And a 200 response whose
    body {"error": null} has no "result" key does not make the call return
    [False]. *)
Lemma send_coordinates_true_outside_success_range :
  (from_requests response_300
   /\ fst (send_coordinates (sample_env (Return response_300)) fresh_world)
      = Return true
   /\ ~ success_as_specified (sample_env (Return response_300)) fresh_world)
  /\ (py_contains "result" body_error_null = Return false
      /\ fst (send_coordinates
                (sample_env (Return (response_200 body_error_null)))
                fresh_world)
         <> Return false).
Proof.
  split; [split; [reflexivity | split; [vm_compute; reflexivity |]] |].
  - intros (r & Hr & Hrange & _). simpl in Hr. injection Hr as <-.
    discriminate Hrange.
  - split; [reflexivity |]. vm_compute. discriminate.
Qed.

(** C2. With a client whose responses are those of requests,
    [send_coordinates] returns [True] exactly when the coordinates are
    there, the POST comes back with a response instead of an exception, the
    status code is none from 400 to 599, the body parses to a JSON object
    that has no "error" member and has a "result" member with a true value.
    For a response with status 200: the bodies {"result": false} and
    {"result": null}, and an object without "result" whose "error" member,
    if it has one, is an object, give [False]; the body {"result": true}
    gives [True]. *)
Theorem send_coordinates_returns_true_iff_ok_and_result_truthy :
  (forall env w,
     client_of_requests env ->
     (fst (send_coordinates env w) = Return true
      <-> coordinates_present env
          /\ exists r,
               requests_post env (request env w) = Return r /\ accepted r))
  /\ (forall env w r,
        client_of_requests env ->
        coordinates_present env ->
        requests_post env (request env w) = Return r ->
        Response.status_code r = 200 ->
        (Response.json r = Return (PyDict [ ("result", PyBool false) ]) ->
         fst (send_coordinates env w) = Return false)
        /\ (Response.json r = Return (PyDict [ ("result", PyNone) ]) ->
            fst (send_coordinates env w) = Return false)
        /\ (forall kv,
              Response.json r = Return (PyDict kv) ->
              dict_lookup "result" kv = None ->
              (forall e, dict_lookup "error" kv = Some e ->
                         is_object e = true) ->
              fst (send_coordinates env w) = Return false)
        /\ (Response.json r = Return (PyDict [ ("result", PyBool true) ]) ->
            fst (send_coordinates env w) = Return true)).
Proof.
  split.
  - intros env w Hc. rewrite send_coordinates_true_iff.
    split; intros (Hp & r & Hpost & Hok & Hbody);
      (split; [exact Hp |]); exists r; (split; [exact Hpost |]);
      (split; [| exact Hbody]); pose proof (Hc _ r Hpost) as Hr;
      unfold from_requests in Hr; congruence.
  - intros env w r Hc Hp Hpost Hstatus.
    assert (Hok : Response.ok r = true).
    { pose proof (Hc _ r Hpost) as Hr. unfold from_requests in Hr.
      rewrite Hr, Hstatus. reflexivity. }
    repeat split.
    + intro Hjson.
      apply (send_coordinates_no_result env w r _ Hp Hpost Hok Hjson);
        simpl; [discriminate | intros res [= <-]; reflexivity].
    + intro Hjson.
      apply (send_coordinates_no_result env w r _ Hp Hpost Hok Hjson);
        simpl; [discriminate | intros res [= <-]; reflexivity].
    + intros kv Hjson Hnone Herr.
      apply (send_coordinates_no_result env w r kv Hp Hpost Hok Hjson Herr).
      rewrite Hnone. discriminate.
    + intro Hjson. apply send_coordinates_true_iff.
      split; [exact Hp |]. exists r. split; [exact Hpost |].
      split; [exact Hok |].
      exists [ ("result", PyBool true) ], (PyBool true).
      repeat split. exact Hjson.
Qed.

Lemma send_coordinates_returns_true_iff_ok_and_result_truthy_witness :
  client_of_requests (sample_env (Return response_300))
  /\ fst (send_coordinates (sample_env (Return response_300)) fresh_world)
     = Return true.
Proof.
  assert (Hc : client_of_requests (sample_env (Return response_300))).
  { intros args r H. simpl in H. injection H as <-. reflexivity. }
  split; [exact Hc |].
  apply (proj1 send_coordinates_returns_true_iff_ok_and_result_truthy
               (sample_env (Return response_300)) fresh_world Hc).
  split.
  - repeat split; discriminate.
  - exists response_300. split; [reflexivity |]. split; [reflexivity |].
    exists [ ("result", PyBool true) ], (PyBool true).
    repeat split.
Defined.

(** ** The order of the checks *)

(** A status that is no success ends the call before the body is looked
    at: whatever [response.json()] would do, the result is the same. *)
Lemma send_coordinates_bad_status (env : Env) (w : world) (r : Response.t) :
  coordinates_present env ->
  requests_post env (request env w) = Return r ->
  Response.ok r = false ->
  send_coordinates env w
  = (Return false, add_log (sent env w) [http_error_record r]).
Proof.
  intros Hp Hpost Hok.
  rewrite (send_coordinates_run env w Hp), Hpost, Hok. reflexivity.
Qed.

(** A body that does not parse ends the call before any member is looked
    up. *)
Lemma send_coordinates_parse_failure (env : Env) (w : world)
      (r : Response.t) (e : exception) :
  coordinates_present env ->
  requests_post env (request env w) = Return r ->
  Response.ok r = true ->
  Response.json r = Raise e ->
  isinstance e JSONDecodeError = true ->
  send_coordinates env w
  = (Return false, add_log (sent env w) [parse_error_record e]).
Proof.
  intros Hp Hpost Hok Hjson He.
  rewrite (send_coordinates_run env w Hp), Hpost, Hok, Hjson, He.
  reflexivity.
Qed.

(** An "error" member that is an object ends the call before "result" is
    looked up. *)
Lemma send_coordinates_rpc_error (env : Env) (w : world) (r : Response.t)
      (kv fields : list (string * pyval)) :
  coordinates_present env ->
  requests_post env (request env w) = Return r ->
  Response.ok r = true ->
  Response.json r = Return (PyDict kv) ->
  dict_lookup "error" kv = Some (PyDict fields) ->
  send_coordinates env w
  = (Return false, add_log (sent env w) [rpc_error_record fields]).
Proof.
  intros Hp Hpost Hok Hjson Herr.
  rewrite (send_coordinates_run env w Hp), Hpost, Hok, Hjson.
  cbn [negb]. rewrite classify_dict, Herr. reflexivity.
Qed.

(** An exception of the HTTP client ends the call with [False]. *)
Lemma send_coordinates_transport_failure (env : Env) (w : world)
      (e : exception) :
  coordinates_present env ->
  requests_post env (request env w) = Raise e ->
  isinstance e RequestException = true ->
  send_coordinates env w
  = (Return false, add_log (sent env w) [transport_record (w_self w) e]).
Proof.
  intros Hp Hpost He.
  rewrite (send_coordinates_run env w Hp), Hpost, He. reflexivity.
Qed.

(** No exception of the HTTP client gets out of [send_coordinates]: a call
    returns a boolean or raises an exception of another kind. *)
Lemma send_coordinates_returns_or_raises (env : Env) (w : world) :
  (exists b, fst (send_coordinates env w) = Return b)
  \/ (exists e, fst (send_coordinates env w) = Raise e
                /\ isinstance e RequestException = false).
Proof.
  destruct (missing_or_present env) as [Hm | Hp].
  - rewrite (send_coordinates_absent env w Hm). left. eexists. reflexivity.
  - rewrite (send_coordinates_run env w Hp).
    destruct (requests_post env (request env w)) as [r | e].
    + destruct (negb (Response.ok r)); [left; eexists; reflexivity |].
      destruct (Response.json r) as [v | e].
      * destruct (fst (classify v (sent env w))) as [b | e] eqn:Hc.
        -- left. eexists. reflexivity.
        -- right. exists e. split; [reflexivity |].
           exact (classify_raises v (sent env w) e Hc).
      * destruct (isinstance e JSONDecodeError);
          [left; eexists; reflexivity |].
        destruct (isinstance e RequestException) eqn:He;
          [left; eexists; reflexivity |].
        right. exists e. split; [reflexivity | exact He].
    + destruct (isinstance e RequestException) eqn:He;
        [left; eexists; reflexivity |].
      right. exists e. split; [reflexivity | exact He].
Qed.

(** C4. The checks run in the order status, parse, "error", "result", but
    the "error" branch does not always return: on the 200 response with
    body {"error": null, "result": true} the call reaches the "error"
    branch and raises [AttributeError] while it builds the log message,
    where the claim has it return [False]. *)
Theorem send_coordinates_error_null_raises :
  send_coordinates
    (sample_env
       (Return (response_200
                  (PyDict [ ("error", PyNone); ("result", PyBool true) ]))))
    fresh_world
  = (Raise {| exc_type := AttributeError;
              exc_msg := "object has no attribute 'get'" |},
     sent (sample_env
             (Return (response_200
                        (PyDict [ ("error", PyNone);
                                  ("result", PyBool true) ]))))
          fresh_world).
Proof. vm_compute. reflexivity. Qed.

(** C5. Not every outcome of the exchange is turned into [False]: on the
    200 response with body 5, [connect] with the "share location" command
    lets the [TypeError] of the membership test out to its caller. *)
Theorem connect_raises_on_scalar_body :
  fst (connect (sample_env (Return (response_200 (PyInt 5))))
               {| action := SHARE_LOCATION |} fresh_world)
  = Raise {| exc_type := TypeError; exc_msg := "argument is not iterable" |}.
Proof. vm_compute. reflexivity. Qed.

(** ** Bodies of the wrong type *)

(** C9. On a success response whose body parses to a value that is no
    object, array or string, [send_coordinates] raises the [TypeError] of
    the test ["error" in response_data]; on a body whose "error" member is
    no object it raises the [AttributeError] of [error.get].  Neither is
    caught, and nothing is logged after the request. *)
Theorem send_coordinates_raises_on_ill_typed_body
        (env : Env) (w : world) (r : Response.t) :
  coordinates_present env ->
  requests_post env (request env w) = Return r ->
  Response.ok r = true ->
  (forall v,
     Response.json r = Return v ->
     is_container v = false ->
     send_coordinates env w
     = (Raise {| exc_type := TypeError;
                 exc_msg := "argument is not iterable" |},
        sent env w))
  /\ (forall kv error,
        Response.json r = Return (PyDict kv) ->
        dict_lookup "error" kv = Some error ->
        is_object error = false ->
        send_coordinates env w
        = (Raise {| exc_type := AttributeError;
                    exc_msg := "object has no attribute 'get'" |},
           sent env w)).
Proof.
  intros Hp Hpost Hok. split.
  - intros v Hjson Hv.
    rewrite (send_coordinates_run env w Hp), Hpost, Hok, Hjson.
    cbn [negb]. apply classify_not_container. exact Hv.
  - intros kv error Hjson Herr Hobj.
    rewrite (send_coordinates_run env w Hp), Hpost, Hok, Hjson.
    cbn [negb]. rewrite classify_dict, Herr.
    destruct error; try reflexivity. discriminate Hobj.
Qed.

Lemma send_coordinates_raises_on_ill_typed_body_witness :
  fst (send_coordinates (sample_env (Return (response_200 PyNone)))
                        fresh_world)
  = Raise {| exc_type := TypeError; exc_msg := "argument is not iterable" |}.
Proof.
  pose proof
    (send_coordinates_raises_on_ill_typed_body
       (sample_env (Return (response_200 PyNone))) fresh_world
       (response_200 PyNone)) as H.
  destruct H as [H _].
  - repeat split; discriminate.
  - reflexivity.
  - reflexivity.
  - rewrite (H PyNone); reflexivity.
Defined.

(** ** The dispatcher entry point *)

Lemma GPSAction_eqb_eq (a b : GPSAction) :
  GPSAction_eqb a b = true <-> a = b.
Proof.
  destruct a as [| m], b as [| n]; simpl; split; try congruence.
  - intro H. apply Nat.eqb_eq in H. congruence.
  - intros [= ->]. apply Nat.eqb_refl.
Qed.

Lemma connect_share_location (env : Env) (output_interface : GPSInput)
      (w : world) :
  action output_interface = SHARE_LOCATION ->
  connect env output_interface w
  = (match fst (send_coordinates env (add_log w [received output_interface])) with
     | Return _ => Return tt
     | Raise e => Raise e
     end,
     snd (send_coordinates env (add_log w [received output_interface]))).
Proof.
  intro Ha. unfold connect, bind, logging_info, add_log, received.
  rewrite Ha. cbn [GPSAction_eqb].
  match goal with
  | |- context [send_coordinates env ?w1] =>
      destruct (send_coordinates env w1) as [[b | e] w']; reflexivity
  end.
Qed.

Lemma connect_other_action (env : Env) (output_interface : GPSInput)
      (w : world) :
  action output_interface <> SHARE_LOCATION ->
  connect env output_interface w
  = (Return tt, add_log w [received output_interface]).
Proof.
  intro Ha. unfold connect, bind, logging_info. simpl.
  destruct (GPSAction_eqb (action output_interface) SHARE_LOCATION) eqn:Heq.
  - apply GPSAction_eqb_eq in Heq. contradiction.
  - reflexivity.
Qed.

(** C6. [connect] runs [send_coordinates] exactly when the command is
    "share location", and then returns nothing whatever boolean comes
    back; on any other command it logs the command and does nothing else:
    no HTTP call, no change of the instance.  In the log, the record that
    opens [send_coordinates] follows the command's record exactly when the
    command is "share location". *)
Theorem connect_runs_send_coordinates_iff_share_location
        (env : Env) (output_interface : GPSInput) (w : world) :
  (action output_interface = SHARE_LOCATION ->
   snd (connect env output_interface w)
   = snd (send_coordinates env (add_log w [received output_interface]))
   /\ forall b,
        fst (send_coordinates env (add_log w [received output_interface]))
        = Return b ->
        fst (connect env output_interface w) = Return tt)
  /\ (action output_interface <> SHARE_LOCATION ->
      connect env output_interface w
      = (Return tt, add_log w [received output_interface])
      /\ w_http (snd (connect env output_interface w)) = w_http w)
  /\ exists rs,
       w_log (snd (connect env output_interface w))
       = (w_log w ++ received output_interface :: rs)%list
       /\ (In sending_record rs <-> action output_interface = SHARE_LOCATION).
Proof.
  split; [| split].
  - intro Ha. rewrite (connect_share_location env _ w Ha). simpl.
    split; [reflexivity |]. intros b ->. reflexivity.
  - intro Ha. rewrite (connect_other_action env _ w Ha).
    split; reflexivity.
  - destruct (GPSAction_eqb (action output_interface) SHARE_LOCATION) eqn:Heq.
    + apply GPSAction_eqb_eq in Heq.
      rewrite (connect_share_location env _ w Heq). cbn [snd].
      destruct (send_coordinates_log
                  env (add_log w [received output_interface])) as [rs Hrs].
      exists (preamble env ++ rs)%list. split.
      * rewrite Hrs. unfold add_log. cbn [w_log].
        rewrite <- app_assoc. reflexivity.
      * split; [intros _; exact Heq | intros _; left; reflexivity].
    + assert (Ha : action output_interface <> SHARE_LOCATION).
      { intro Ha. apply GPSAction_eqb_eq in Ha. congruence. }
      rewrite (connect_other_action env _ w Ha).
      exists []. split; [reflexivity |].
      split; [intros [] | intro; contradiction].
Qed.

Lemma connect_runs_send_coordinates_iff_share_location_witness :
  connect (sample_env (Return (response_200 (PyDict [ ("result", PyBool true) ]))))
          {| action := OTHER_ACTION 0 |} fresh_world
  = (Return tt, add_log fresh_world [received {| action := OTHER_ACTION 0 |}]).
Proof.
  apply (connect_runs_send_coordinates_iff_share_location
           (sample_env (Return (response_200 (PyDict [ ("result", PyBool true) ]))))
           {| action := OTHER_ACTION 0 |} fresh_world).
  simpl. discriminate.
Defined.

(** ** The instance *)

(** C7. No call of [connect] or [send_coordinates] changes the instance:
    its configuration, [fabric_endpoint], [request_timeout] and the
    reference to the store are after the call what they were before,
    whether the call returns or raises. *)
Theorem connector_instance_is_never_mutated
        (env : Env) (output_interface : GPSInput) (w : world) :
  w_self (snd (connect env output_interface w)) = w_self w
  /\ w_self (snd (send_coordinates env w)) = w_self w
  /\ fabric_endpoint (w_self (snd (connect env output_interface w)))
     = fabric_endpoint (w_self w)
  /\ request_timeout (w_self (snd (connect env output_interface w)))
     = request_timeout (w_self w).
Proof.
  pose proof (keeps_self_connect env output_interface w) as Hc.
  pose proof (keeps_self_send_coordinates env w) as Hs.
  rewrite Hc. repeat split. exact Hs.
Qed.

(** ** The defaults *)

(** C8. A configuration that supplies nothing gives the endpoint
    "http://localhost:8545" and the timeout 10, and a connector built from
    it posts to that URL with that timeout. *)
Theorem default_endpoint_and_timeout_are_used :
  GPSFabricConfig.fabric_endpoint (GPSFabricConfig.new None None)
  = "http://localhost:8545"
  /\ GPSFabricConfig.request_timeout (GPSFabricConfig.new None None) = 10
  /\ forall env w,
       w_self w = __init__ (GPSFabricConfig.new None None) ->
       coordinates_present env ->
       exists call,
         w_http (snd (send_coordinates env w)) = (w_http w ++ [call])%list
         /\ PostArgs.url call = "http://localhost:8545"
         /\ PostArgs.timeout call = 10.
Proof.
  split; [reflexivity | split; [reflexivity |]].
  intros env w Hself Hp. exists (request env w).
  split; [apply send_coordinates_http; exact Hp |].
  unfold request. rewrite Hself. split; reflexivity.
Qed.

Lemma default_endpoint_and_timeout_are_used_witness :
  exists call,
    w_http (snd (send_coordinates (sample_env (Raise read_timeout)) fresh_world))
    = [call]
    /\ PostArgs.url call = "http://localhost:8545"
    /\ PostArgs.timeout call = 10.
Proof.
  apply (proj2 (proj2 default_endpoint_and_timeout_are_used)
               (sample_env (Raise read_timeout)) fresh_world).
  - reflexivity.
  - repeat split; discriminate.
Defined.

(** ** What the validation lets through *)

(** C10. The validation asks of a fetched value only that it is not
    [None]: whatever else the three values are, the request goes out and
    carries them unchanged under "params".  So it does for 0, 0.0 and any
    string, the empty one included. *)
Theorem validation_only_rejects_None :
  (forall env w,
     get_dynamic_variable env "latitude" <> PyNone ->
     get_dynamic_variable env "longitude" <> PyNone ->
     get_dynamic_variable env "yaw_deg" <> PyNone ->
     exists call,
       w_http (snd (send_coordinates env w)) = (w_http w ++ [call])%list
       /\ py_getitem (PostArgs.json call) "params"
          = Return
              (PyList
                 [ PyDict
                     [ ("latitude", get_dynamic_variable env "latitude");
                       ("longitude", get_dynamic_variable env "longitude");
                       ("yaw", get_dynamic_variable env "yaw_deg") ] ]))
  /\ (forall s client w,
        exists call,
          w_http (snd (send_coordinates
                         {| get_dynamic_variable :=
                              store (PyInt 0) (PyFloat (S754_zero false)) (PyStr s);
                            requests_post := client |} w))
          = (w_http w ++ [call])%list
          /\ py_getitem (PostArgs.json call) "params"
             = Return
                 (PyList
                    [ PyDict
                        [ ("latitude", PyInt 0);
                          ("longitude", PyFloat (S754_zero false));
                          ("yaw", PyStr s) ] ])).
Proof.
  assert (Hgen : forall env w,
             coordinates_present env ->
             exists call,
               w_http (snd (send_coordinates env w)) = (w_http w ++ [call])%list
               /\ py_getitem (PostArgs.json call) "params"
                  = Return
                      (PyList
                         [ PyDict
                             [ ("latitude", get_dynamic_variable env "latitude");
                               ("longitude", get_dynamic_variable env "longitude");
                               ("yaw", get_dynamic_variable env "yaw_deg") ] ])).
  { intros env w Hp. exists (request env w).
    split; [apply send_coordinates_http; exact Hp | reflexivity]. }
  split.
  - intros env w Hlat Hlon Hyaw. apply Hgen. repeat split; assumption.
  - intros s client w.
    apply (Hgen {| get_dynamic_variable :=
                     store (PyInt 0) (PyFloat (S754_zero false)) (PyStr s);
                   requests_post := client |} w).
    repeat split; discriminate.
Qed.

Lemma validation_only_rejects_None_witness :
  exists call,
    w_http (snd (send_coordinates
                   {| get_dynamic_variable :=
                        store (PyStr "north") (PyBool false) (PyList []);
                      requests_post := fun _ => Raise read_timeout |}
                   fresh_world))
    = [call]
    /\ py_getitem (PostArgs.json call) "params"
       = Return
           (PyList
              [ PyDict
                  [ ("latitude", PyStr "north");
                    ("longitude", PyBool false);
                    ("yaw", PyList []) ] ]).
Proof.
  apply (proj1 validation_only_rejects_None
               {| get_dynamic_variable :=
                    store (PyStr "north") (PyBool false) (PyList []);
                  requests_post := fun _ => Raise read_timeout |}
               fresh_world);
    discriminate.
Defined.

(** * Further properties of [send_coordinates] and [connect] *)

(** ** The failure paths, one by one *)

(** X1. A response whose status is no success ends the call with [False]
    and one ERROR record that carries the status code and the body text;
    [response.json()] is not called, so the result is the same whatever
    the body holds. *)
Theorem bad_status_is_final (env : Env) (w : world) (r : Response.t) :
  coordinates_present env ->
  requests_post env (request env w) = Return r ->
  Response.ok r = false ->
  send_coordinates env w
  = (Return false,
     add_log (sent env w)
       [ {| lvl := ERROR;
            msg := [ Lit "GPSFabricConnector: HTTP error ";
                     FmtInt (Response.status_code r); Lit ": ";
                     FmtStr (Response.text r) ] |} ]).
Proof.
  intros Hp Hpost Hok.
  rewrite (send_coordinates_run env w Hp), Hpost, Hok. reflexivity.
Qed.

Lemma bad_status_is_final_witness :
  fst (send_coordinates (sample_env (Return response_500)) fresh_world)
  = Return false.
Proof.
  rewrite (bad_status_is_final (sample_env (Return response_500))
                               fresh_world response_500);
    [reflexivity | repeat split; discriminate | reflexivity | reflexivity].
Defined.

(** X2. A success response whose body does not parse ([response.json()]
    raises [JSONDecodeError]) ends the call with [False] and one ERROR
    record that carries the parse error. *)
Theorem unparseable_body_is_reported (env : Env) (w : world)
        (r : Response.t) (e : exception) :
  coordinates_present env ->
  requests_post env (request env w) = Return r ->
  Response.ok r = true ->
  Response.json r = Raise e ->
  exc_type e = JSONDecodeError ->
  send_coordinates env w
  = (Return false,
     add_log (sent env w)
       [ {| lvl := ERROR;
            msg := [ Lit "GPSFabricConnector: Failed to parse JSON response: ";
                     FmtExc e ] |} ]).
Proof.
  intros Hp Hpost Hok Hjson He.
  rewrite (send_coordinates_run env w Hp), Hpost, Hok, Hjson.
  unfold isinstance. rewrite He. reflexivity.
Qed.

Lemma unparseable_body_is_reported_witness :
  fst (send_coordinates (sample_env (Return response_html)) fresh_world)
  = Return false.
Proof.
  rewrite (unparseable_body_is_reported
             (sample_env (Return response_html)) fresh_world
             response_html json_decode_error);
    [reflexivity | repeat split; discriminate
     | reflexivity | reflexivity | reflexivity | reflexivity].
Defined.

(** X3. When the parsed body is an object whose "error" member is an
    object, the call ends with [False] whatever else the body holds, a
    "result" included, and logs the error's "code" and "message", with
    [None] in place of one that is missing. *)
Theorem error_object_wins_over_result (env : Env) (w : world)
        (r : Response.t) (kv fields : list (string * pyval)) :
  coordinates_present env ->
  requests_post env (request env w) = Return r ->
  Response.ok r = true ->
  Response.json r = Return (PyDict kv) ->
  dict_lookup "error" kv = Some (PyDict fields) ->
  send_coordinates env w
  = (Return false,
     add_log (sent env w)
       [ {| lvl := ERROR;
            msg := [ Lit "GPSFabricConnector: JSON-RPC error: code=";
                     FmtVal (match dict_lookup "code" fields with
                             | Some code => code
                             | None => PyNone
                             end);
                     Lit ", message=";
                     FmtVal (match dict_lookup "message" fields with
                             | Some message => message
                             | None => PyNone
                             end) ] |} ]).
Proof.
  intros Hp Hpost Hok Hjson Herr.
  rewrite (send_coordinates_run env w Hp), Hpost, Hok, Hjson.
  cbn [negb]. rewrite classify_dict, Herr. reflexivity.
Qed.

Lemma error_object_wins_over_result_witness :
  send_coordinates (sample_env (Return (response_200 body_error_and_result)))
                   fresh_world
  = (Return false,
     add_log (sent (sample_env (Return (response_200 body_error_and_result)))
                   fresh_world)
       [ {| lvl := ERROR;
            msg := [ Lit "GPSFabricConnector: JSON-RPC error: code=";
                     FmtVal (PyInt (-32000));
                     Lit ", message=";
                     FmtVal PyNone ] |} ]).
Proof.
  apply (error_object_wins_over_result
           (sample_env (Return (response_200 body_error_and_result)))
           fresh_world (response_200 body_error_and_result)
           [ ("error", PyDict [ ("code", PyInt (-32000)) ]);
             ("result", PyBool true) ]
           [ ("code", PyInt (-32000)) ]);
    [repeat split; discriminate
    | reflexivity | reflexivity | reflexivity | reflexivity].
Defined.

(** X4. The [except] clauses are tried in the order of the source, so an
    exception that is a [Timeout] is reported as a timeout, with the
    configured number of seconds, also when it is a [ConnectionError] as
    well (a connect timeout); a [ConnectionError] that is no [Timeout] is
    reported as a connection error.  Both end the call with [False]. *)
Theorem timeout_is_reported_before_connection_error
        (env : Env) (w : world) (e : exception) :
  coordinates_present env ->
  requests_post env (request env w) = Raise e ->
  (isinstance e Timeout = true ->
   send_coordinates env w
   = (Return false,
      add_log (sent env w)
        [ {| lvl := ERROR;
             msg := [ Lit "GPSFabricConnector: Request timed out after ";
                      FmtInt (request_timeout (w_self w));
                      Lit " seconds" ] |} ]))
  /\ (isinstance e Timeout = false ->
      isinstance e ConnectionError = true ->
      send_coordinates env w
      = (Return false,
         add_log (sent env w)
           [ {| lvl := ERROR;
                msg := [ Lit "GPSFabricConnector: Connection error: ";
                         FmtExc e ] |} ])).
Proof.
  intros Hp Hpost. rewrite (send_coordinates_run env w Hp), Hpost.
  unfold transport_record. destruct e as [c m]. split.
  - intro Ht. rewrite Ht. destruct c; try discriminate Ht; reflexivity.
  - intros Ht Hc. rewrite Ht, Hc.
    destruct c; try discriminate Hc; try discriminate Ht; reflexivity.
Qed.

Lemma timeout_is_reported_before_connection_error_witness :
  isinstance connect_timeout ConnectionError = true
  /\ send_coordinates (sample_env (Raise connect_timeout)) fresh_world
     = (Return false,
        add_log (sent (sample_env (Raise connect_timeout)) fresh_world)
          [ {| lvl := ERROR;
               msg := [ Lit "GPSFabricConnector: Request timed out after ";
                        FmtInt 10; Lit " seconds" ] |} ]).
Proof.
  split; [reflexivity |].
  apply (timeout_is_reported_before_connection_error
           (sample_env (Raise connect_timeout)) fresh_world connect_timeout);
    [repeat split; discriminate | reflexivity | reflexivity].
Defined.

(** X5. The inner [except] clause catches [JSONDecodeError] only: another
    exception out of [response.json()] goes to the clauses of the outer
    [try], which turn it into [False] when it is a [RequestException] and
    let it out of the call otherwise. *)
Theorem other_exception_of_json_reaches_outer_try
        (env : Env) (w : world) (r : Response.t) (e : exception) :
  coordinates_present env ->
  requests_post env (request env w) = Return r ->
  Response.ok r = true ->
  Response.json r = Raise e ->
  isinstance e JSONDecodeError = false ->
  (isinstance e RequestException = true ->
   send_coordinates env w
   = (Return false, add_log (sent env w) [transport_record (w_self w) e]))
  /\ (isinstance e RequestException = false ->
      send_coordinates env w = (Raise e, sent env w)).
Proof.
  intros Hp Hpost Hok Hjson He.
  rewrite (send_coordinates_run env w Hp), Hpost, Hok, Hjson, He.
  cbn [negb]. split; intros ->; reflexivity.
Qed.

Lemma other_exception_of_json_reaches_outer_try_witness :
  send_coordinates (sample_env (Return response_broken)) fresh_world
  = (Return false,
     add_log (sent (sample_env (Return response_broken)) fresh_world)
       [ {| lvl := ERROR;
            msg := [ Lit "GPSFabricConnector: Connection error: ";
                     FmtExc connection_broken ] |} ]).
Proof.
  apply (other_exception_of_json_reaches_outer_try
           (sample_env (Return response_broken)) fresh_world
           response_broken connection_broken);
    [repeat split; discriminate
    | reflexivity | reflexivity | reflexivity | reflexivity | reflexivity].
Defined.

(** ** Bodies that are arrays or strings *)

Lemma classify_array_or_string (v : pyval) (w : world) :
  is_container v = true ->
  is_object v = false ->
  classify v w
  = match py_contains "error" v, py_contains "result" v with
    | Return false, Return false => (Return false, add_log w [not_shared_record])
    | _, _ => (Raise bad_index, w)
    end.
Proof.
  destruct v as [| b | z | f | s | l | kv]; simpl; try discriminate;
    intros _ _; unfold classify, bind, lift; simpl.
  - destruct (str_contains "error" s); simpl; [reflexivity |].
    destruct (str_contains "result" s); reflexivity.
  - destruct (existsb (str_eq_val "error") l); simpl; [reflexivity |].
    destruct (existsb (str_eq_val "result") l); reflexivity.
Qed.

(** X6. A success response whose body parses to an array or a string is
    never a success: the call returns [False] when the body contains
    neither "error" nor "result" (as an element of the array, as a part of
    the string) and raises the [TypeError] of indexing with a string when
    it contains one of them. *)
Theorem array_or_string_body_fails_or_raises
        (env : Env) (w : world) (r : Response.t) (v : pyval) :
  coordinates_present env ->
  requests_post env (request env w) = Return r ->
  Response.ok r = true ->
  Response.json r = Return v ->
  is_container v = true ->
  is_object v = false ->
  (py_contains "error" v = Return false ->
   py_contains "result" v = Return false ->
   send_coordinates env w
   = (Return false,
      add_log (sent env w)
        [ {| lvl := ERROR;
             msg := [ Lit "GPSFabricConnector: Failed to share coordinates." ] |} ]))
  /\ (py_contains "error" v = Return true
      \/ py_contains "result" v = Return true ->
      send_coordinates env w
      = (Raise {| exc_type := TypeError;
                  exc_msg := "indices must be integers" |},
         sent env w)).
Proof.
  intros Hp Hpost Hok Hjson Hc Ho.
  rewrite (send_coordinates_run env w Hp), Hpost, Hok, Hjson.
  cbn [negb]. rewrite (classify_array_or_string v _ Hc Ho). split.
  - intros -> ->. reflexivity.
  - intros [-> | ->]; [reflexivity |].
    destruct (py_contains "error" v) as [[|] | e]; reflexivity.
Qed.

Lemma array_or_string_body_fails_or_raises_witness :
  send_coordinates
    (sample_env (Return (response_200 (PyStr "no error occurred"))))
    fresh_world
  = (Raise {| exc_type := TypeError; exc_msg := "indices must be integers" |},
     sent (sample_env (Return (response_200 (PyStr "no error occurred"))))
          fresh_world).
Proof.
  apply (array_or_string_body_fails_or_raises
           (sample_env (Return (response_200 (PyStr "no error occurred"))))
           fresh_world (response_200 (PyStr "no error occurred"))
           (PyStr "no error occurred"));
    [repeat split; discriminate
    | reflexivity | reflexivity | reflexivity | reflexivity | reflexivity
    | left; reflexivity].
Defined.

(** ** The return value and the log *)

Lemma classify_returns (v : pyval) (w : world) (b : bool) :
  fst (classify v w) = Return b ->
  exists record,
    snd (classify v w) = add_log w [record]
    /\ lvl record = if b then INFO else ERROR.
Proof.
  destruct v as [| z | z | f | s | l | kv];
    try (rewrite classify_not_container by reflexivity; discriminate).
  - rewrite classify_array_or_string by reflexivity.
    destruct (py_contains "error" (PyStr s)) as [[|] | e];
      try discriminate.
    destruct (py_contains "result" (PyStr s)) as [[|] | e];
      try discriminate.
    intros [= <-]. eexists. split; reflexivity.
  - rewrite classify_array_or_string by reflexivity.
    destruct (py_contains "error" (PyList l)) as [[|] | e];
      try discriminate.
    destruct (py_contains "result" (PyList l)) as [[|] | e];
      try discriminate.
    intros [= <-]. eexists. split; reflexivity.
  - rewrite classify_dict.
    destruct (dict_lookup "error" kv) as [[| | | | | |] |];
      try discriminate.
    + intros [= <-]. eexists. split; reflexivity.
    + destruct (dict_lookup "result" kv) as [res |];
        [destruct (truthy res) |];
        intros [= <-]; eexists; split; reflexivity.
Qed.

(** X7. The return value can be read off the log: a call that returns has
    added, after its four opening records, exactly one record, of level
    ERROR when it returns [False] and of level INFO when it returns
    [True]. *)
Theorem returned_value_matches_last_record
        (env : Env) (w : world) (b : bool) :
  fst (send_coordinates env w) = Return b ->
  exists record,
    w_log (snd (send_coordinates env w))
    = (w_log w ++ preamble env ++ [record])%list
    /\ lvl record = if b then INFO else ERROR.
Proof.
  destruct (missing_or_present env) as [Hm | Hp].
  - rewrite (send_coordinates_absent env w Hm). intros [= <-].
    exists (unavailable env). split; reflexivity.
  - rewrite (send_coordinates_run env w Hp).
    assert (Hlog : forall record,
               w_log (add_log (sent env w) [record])
               = (w_log w ++ preamble env ++ [record])%list).
    { intro record. unfold sent, add_http, add_log. cbn [w_log].
      now rewrite <- app_assoc. }
    destruct (requests_post env (request env w)) as [r | e].
    + destruct (negb (Response.ok r)).
      { intros [= <-]. eexists. split; [apply Hlog | reflexivity]. }
      destruct (Response.json r) as [v | e].
      * intro Hc. destruct (classify_returns v _ b Hc) as (record & -> & Hl).
        exists record. split; [apply Hlog | exact Hl].
      * destruct (isinstance e JSONDecodeError).
        { intros [= <-]. eexists. split; [apply Hlog | reflexivity]. }
        destruct (isinstance e RequestException); [| discriminate].
        intros [= <-]. eexists. split; [apply Hlog |].
        unfold transport_record.
        destruct (isinstance e Timeout); [reflexivity |].
        destruct (isinstance e ConnectionError); reflexivity.
    + destruct (isinstance e RequestException); [| discriminate].
      intros [= <-]. eexists. split; [apply Hlog |].
      unfold transport_record.
      destruct (isinstance e Timeout); [reflexivity |].
      destruct (isinstance e ConnectionError); reflexivity.
Qed.

Lemma returned_value_matches_last_record_witness :
  exists record,
    w_log (snd (send_coordinates (sample_env (Return response_500))
                                 fresh_world))
    = (preamble (sample_env (Return response_500)) ++ [record])%list
    /\ lvl record = ERROR.
Proof.
  apply (returned_value_matches_last_record
           (sample_env (Return response_500)) fresh_world false).
  reflexivity.
Defined.

(** ** Results that count as failure *)

Lemma truthy_false_iff (v : pyval) : truthy v = false <-> falsy v.
Proof.
  unfold falsy. split.
  - destruct v as [| b | z | f | s | l | kv]; simpl.
    + intros _. left. reflexivity.
    + intros ->. right; left. reflexivity.
    + intro H. apply negb_false_iff, Z.eqb_eq in H. subst z.
      right; right; left. reflexivity.
    + destruct f as [sign | sign | | sign m e]; try discriminate.
      intros _. right; right; right; left. exists sign. reflexivity.
    + destruct s; [| discriminate].
      intros _. do 4 right. left. reflexivity.
    + destruct l; [| discriminate].
      intros _. do 5 right. left. reflexivity.
    + destruct kv; [| discriminate].
      intros _. do 6 right. reflexivity.
  - intros [-> | [-> | [-> | [[sign ->] | [-> | [-> | ->]]]]]]; reflexivity.
Qed.

(** X8. With a success response whose body is an object without "error",
    a "result" member decides by its truth value, not by its presence: the
    call returns [False] when the result is null, false, 0, 0.0, the empty
    string, the empty array or the empty object, and [True] for every
    other result. *)
Theorem falsy_result_is_failure
        (env : Env) (w : world) (r : Response.t)
        (kv : list (string * pyval)) (result : pyval) :
  coordinates_present env ->
  requests_post env (request env w) = Return r ->
  Response.ok r = true ->
  Response.json r = Return (PyDict kv) ->
  dict_lookup "error" kv = None ->
  dict_lookup "result" kv = Some result ->
  (falsy result -> fst (send_coordinates env w) = Return false)
  /\ (~ falsy result -> fst (send_coordinates env w) = Return true).
Proof.
  intros Hp Hpost Hok Hjson Herr Hres.
  rewrite (send_coordinates_run env w Hp), Hpost, Hok, Hjson.
  cbn [negb]. rewrite classify_dict, Herr, Hres. split.
  - intro Hf. apply truthy_false_iff in Hf. rewrite Hf. reflexivity.
  - intro Hf. destruct (truthy result) eqn:Ht; [reflexivity |].
    apply truthy_false_iff in Ht. contradiction.
Qed.

Lemma falsy_result_is_failure_witness :
  fst (send_coordinates
         (sample_env (Return (response_200 (PyDict [ ("result", PyInt 0) ]))))
         fresh_world)
  = Return false.
Proof.
  apply (falsy_result_is_failure
           (sample_env (Return (response_200 (PyDict [ ("result", PyInt 0) ]))))
           fresh_world
           (response_200 (PyDict [ ("result", PyInt 0) ]))
           [ ("result", PyInt 0) ] (PyInt 0));
    [repeat split; discriminate
    | reflexivity | reflexivity | reflexivity | reflexivity | reflexivity
    | right; right; left; reflexivity].
Defined.

(** ** How many requests a command costs *)

Lemma request_add_log (env : Env) (w : world) (rs : list log_record) :
  request env (add_log w rs) = request env w.
Proof. reflexivity. Qed.

(** X9. One call of [connect] makes at most one HTTP call, and no second
    attempt after a failure: it posts the one request when the command is
    "share location" and all three coordinates are there, whatever the
    client then answers, and posts nothing in every other case. *)
Theorem connect_posts_at_most_once
        (env : Env) (output_interface : GPSInput) (w : world) :
  (action output_interface = SHARE_LOCATION /\ coordinates_present env ->
   w_http (snd (connect env output_interface w))
   = (w_http w ++ [request env w])%list)
  /\ (~ (action output_interface = SHARE_LOCATION
         /\ coordinates_present env) ->
      w_http (snd (connect env output_interface w)) = w_http w).
Proof.
  split.
  - intros [Ha Hp]. rewrite (connect_share_location env _ w Ha). cbn [snd].
    rewrite (send_coordinates_http env _ Hp), request_add_log.
    reflexivity.
  - intro Hn.
    destruct (GPSAction_eqb (action output_interface) SHARE_LOCATION) eqn:Heq.
    + apply GPSAction_eqb_eq in Heq.
      rewrite (connect_share_location env _ w Heq). cbn [snd].
      destruct (missing_or_present env) as [Hm | Hp].
      * rewrite (send_coordinates_absent env _ Hm). reflexivity.
      * exfalso. apply Hn. split; assumption.
    + assert (Ha : action output_interface <> SHARE_LOCATION).
      { intro Ha. apply GPSAction_eqb_eq in Ha. congruence. }
      rewrite (connect_other_action env _ w Ha). reflexivity.
Qed.

Lemma connect_posts_at_most_once_witness :
  w_http (snd (connect (sample_env (Return response_500))
                       {| action := SHARE_LOCATION |} fresh_world))
  = [ request (sample_env (Return response_500)) fresh_world ].
Proof.
  apply (connect_posts_at_most_once
           (sample_env (Return response_500))
           {| action := SHARE_LOCATION |} fresh_world).
  split; [reflexivity | repeat split; discriminate].
Defined.

(** ** Calls in a row *)

Lemma classify_outcome_any_state (v : pyval) (w1 w2 : world) :
  fst (classify v w1) = fst (classify v w2).
Proof.
  destruct v as [| b | z | f | s | l | kv];
    try (rewrite !classify_not_container by reflexivity; reflexivity).
  - rewrite !classify_array_or_string by reflexivity.
    destruct (py_contains "error" (PyStr s)) as [[|] | e]; try reflexivity.
    destruct (py_contains "result" (PyStr s)) as [[|] | e]; reflexivity.
  - rewrite !classify_array_or_string by reflexivity.
    destruct (py_contains "error" (PyList l)) as [[|] | e]; try reflexivity.
    destruct (py_contains "result" (PyList l)) as [[|] | e]; reflexivity.
  - rewrite !classify_dict.
    destruct (dict_lookup "error" kv) as [[| | | | | |] |]; try reflexivity.
    destruct (dict_lookup "result" kv) as [res |];
      [destruct (truthy res) |]; reflexivity.
Qed.

(** What a call returns or raises depends on the instance, the store and
    the client, not on the log or on the calls made before. *)
Lemma send_coordinates_outcome_any_history (env : Env) (w1 w2 : world) :
  w_self w1 = w_self w2 ->
  fst (send_coordinates env w1) = fst (send_coordinates env w2).
Proof.
  intro Hself. destruct (missing_or_present env) as [Hm | Hp].
  - rewrite !send_coordinates_absent by exact Hm. reflexivity.
  - rewrite !send_coordinates_run by exact Hp.
    assert (Hreq : request env w1 = request env w2).
    { unfold request. rewrite Hself. reflexivity. }
    rewrite Hreq.
    destruct (requests_post env (request env w2)) as [r | e].
    + destruct (negb (Response.ok r)); [reflexivity |].
      destruct (Response.json r) as [v | e].
      * apply classify_outcome_any_state.
      * destruct (isinstance e JSONDecodeError); [reflexivity |].
        destruct (isinstance e RequestException); reflexivity.
    + destruct (isinstance e RequestException); reflexivity.
Qed.

(** X10. The connector keeps nothing from one call to the next: with the
    store and the client unchanged, a second call of [send_coordinates]
    ends as the first did, and when the coordinates are there it sends the
    same request once more, after a failure as after a success. *)
Theorem second_call_repeats_the_first (env : Env) (w : world) :
  fst (send_coordinates env (snd (send_coordinates env w)))
  = fst (send_coordinates env w)
  /\ (coordinates_present env ->
      w_http (snd (send_coordinates env (snd (send_coordinates env w))))
      = (w_http w ++ [request env w; request env w])%list).
Proof.
  pose proof (keeps_self_send_coordinates env w) as Hself. split.
  - apply send_coordinates_outcome_any_history. exact Hself.
  - intro Hp.
    assert (Hreq : request env (snd (send_coordinates env w))
                   = request env w).
    { unfold request. rewrite Hself. reflexivity. }
    rewrite !send_coordinates_http by exact Hp.
    rewrite Hreq, <- app_assoc. reflexivity.
Qed.

Lemma second_call_repeats_the_first_witness :
  w_http (snd (send_coordinates
                 (sample_env (Raise read_timeout))
                 (snd (send_coordinates (sample_env (Raise read_timeout))
                                        fresh_world))))
  = [ request (sample_env (Raise read_timeout)) fresh_world;
      request (sample_env (Raise read_timeout)) fresh_world ].
Proof.
  apply (proj2 (second_call_repeats_the_first
                  (sample_env (Raise read_timeout)) fresh_world)).
  repeat split; discriminate.
Defined.

(** ** When a command is sure to complete *)

(** X11. [connect] returns to its caller, and [send_coordinates] returns a
    boolean, whenever the surroundings keep to the protocol: the client
    and [response.json()] raise nothing but instances of
    [RequestException], and a body that parses is an object whose "error"
    member, if it has one, is an object. *)
Theorem connect_completes_when_exchange_is_well_formed
        (env : Env) (output_interface : GPSInput) (w : world) :
  (forall args e,
     requests_post env args = Raise e ->
     isinstance e RequestException = true) ->
  (forall args r e,
     requests_post env args = Return r ->
     Response.json r = Raise e ->
     isinstance e RequestException = true) ->
  (forall args r v,
     requests_post env args = Return r ->
     Response.json r = Return v ->
     exists kv,
       v = PyDict kv
       /\ forall error, dict_lookup "error" kv = Some error ->
                        is_object error = true) ->
  (exists b, fst (send_coordinates env w) = Return b)
  /\ fst (connect env output_interface w) = Return tt.
Proof.
  intros Hpost Hjson Hbody.
  assert (Hsend : forall w0, exists b, fst (send_coordinates env w0) = Return b).
  { intro w0. destruct (missing_or_present env) as [Hm | Hp].
    - rewrite (send_coordinates_absent env w0 Hm). eexists. reflexivity.
    - rewrite (send_coordinates_run env w0 Hp).
      destruct (requests_post env (request env w0)) as [r | e] eqn:Hr.
      + destruct (negb (Response.ok r)); [eexists; reflexivity |].
        destruct (Response.json r) as [v | e] eqn:Hj.
        * destruct (Hbody _ r v Hr Hj) as (kv & -> & Herr).
          rewrite classify_dict.
          destruct (dict_lookup "error" kv) as [error |].
          -- specialize (Herr error eq_refl).
             destruct error; try discriminate Herr. eexists. reflexivity.
          -- destruct (dict_lookup "result" kv) as [res |];
               [destruct (truthy res) |]; eexists; reflexivity.
        * destruct (isinstance e JSONDecodeError); [eexists; reflexivity |].
          rewrite (Hjson _ r e Hr Hj). eexists. reflexivity.
      + rewrite (Hpost _ e Hr). eexists. reflexivity. }
  split; [apply Hsend |].
  destruct (GPSAction_eqb (action output_interface) SHARE_LOCATION) eqn:Heq.
  - apply GPSAction_eqb_eq in Heq.
    rewrite (connect_share_location env _ w Heq). cbn [fst].
    destruct (Hsend (add_log w [received output_interface])) as [b ->].
    reflexivity.
  - assert (Ha : action output_interface <> SHARE_LOCATION).
    { intro Ha. apply GPSAction_eqb_eq in Ha. congruence. }
    rewrite (connect_other_action env _ w Ha). reflexivity.
Qed.

Lemma connect_completes_when_exchange_is_well_formed_witness :
  fst (connect (sample_env (Return (response_200 body_error_and_result)))
               {| action := SHARE_LOCATION |} fresh_world)
  = Return tt.
Proof.
  apply (connect_completes_when_exchange_is_well_formed
           (sample_env (Return (response_200 body_error_and_result)))
           {| action := SHARE_LOCATION |} fresh_world).
  - intros args e H. discriminate H.
  - intros args r e H Hj. simpl in H. injection H as <-. discriminate Hj.
  - intros args r v H Hj. simpl in H. injection H as <-.
    simpl in Hj. injection Hj as <-.
    eexists. split; [reflexivity |].
    intros error He. simpl in He. injection He as <-. reflexivity.
Defined.

(** X12. No exception of the HTTP client gets past [connect]: a command
    either completes or ends in an exception that is no
    [RequestException]. *)
Theorem connect_lets_no_request_exception_out
        (env : Env) (output_interface : GPSInput) (w : world) :
  fst (connect env output_interface w) = Return tt
  \/ exists e,
       fst (connect env output_interface w) = Raise e
       /\ isinstance e RequestException = false.
Proof.
  destruct (GPSAction_eqb (action output_interface) SHARE_LOCATION) eqn:Heq.
  - apply GPSAction_eqb_eq in Heq.
    rewrite (connect_share_location env _ w Heq). cbn [fst].
    destruct (send_coordinates_returns_or_raises
                env (add_log w [received output_interface]))
      as [[b ->] | (e & -> & He)].
    + left. reflexivity.
    + right. exists e. split; [reflexivity | exact He].
  - assert (Ha : action output_interface <> SHARE_LOCATION).
    { intro Ha. apply GPSAction_eqb_eq in Ha. congruence. }
    rewrite (connect_other_action env _ w Ha). left. reflexivity.
Qed.
